(** * BitstreamDataService: thumbnail and bundle lookups

    A shallow embedding of
    [src/app/core/data/bitstream-data.service.ts].

    The service composes two collaborators, the bundle service's
    [findByItemAndName] and the inherited [findAllByHref], with the
    RxJS operators [switchMap] and [map].  The embedding keeps what
    JavaScript does at run time: a property read on [undefined] or
    [null] throws a [TypeError], an array read out of range gives
    [undefined], and an exception thrown inside an operator callback
    ends the stream with an error notification.  Streams carry the
    time at which each wrapper arrives, because [switchMap] drops the
    listing it is subscribed to as soon as the bundle lookup delivers
    its next wrapper. *)

From Stdlib Require Import List String ZArith Bool Arith Lia.
Import ListNotations.

Local Open Scope string_scope.

(** ** JavaScript values *)

Module Js.

(** A slot that may hold [undefined], [null] or a value. *)
Inductive maybe (A : Type) : Type :=
| undefined : maybe A
| null : maybe A
| value (a : A) : maybe A.

Arguments undefined {A}.
Arguments null {A}.
Arguments value {A} a.

Inductive exn : Type :=
| TypeError.

(** The outcome of evaluating an expression: a value or a thrown
    exception. *)
Inductive result (A : Type) : Type :=
| Ok (a : A) : result A
| Throw (e : exn) : result A.

Arguments Ok {A} a.
Arguments Throw {A} e.

Definition bind {A B : Type} (r : result A) (k : A -> result B) : result B :=
  match r with
  | Ok a => k a
  | Throw e => Throw e
  end.

(** [o.f]: reading a property of [undefined] or [null] throws. *)
Definition deref {A : Type} (o : maybe A) : result A :=
  match o with
  | value a => Ok a
  | undefined | null => Throw TypeError
  end.

(** [a && b], where [b] is evaluated only when [a] is true. *)
Definition and_then (a : bool) (b : result bool) : result bool :=
  if a then b else Ok false.

(** [arr[i]]: [undefined] out of range. *)
Definition index {A : Type} (arr : list A) (i : nat) : maybe A :=
  match nth_error arr i with
  | Some a => value a
  | None => undefined
  end.

(** [arr.find(p)]: the first element satisfying [p], else [undefined]. *)
Definition find {A : Type} (p : A -> bool) (arr : list A) : maybe A :=
  match List.find p arr with
  | Some a => value a
  | None => undefined
  end.

(** [s.startsWith(t)]. *)
Definition startsWith (s t : string) : bool := String.prefix t s.

Definition maybe_map {A B : Type} (f : A -> B) (o : maybe A) : maybe B :=
  match o with
  | undefined => undefined
  | null => null
  | value a => value (f a)
  end.

(** [Number.MAX_SAFE_INTEGER] *)
Definition MAX_SAFE_INTEGER : Z := 2 ^ 53 - 1.

End Js.

Import Js.

Declare Scope js_scope.
Delimit Scope js_scope with js.
Notation "x <- r ;; k" := (Js.bind r (fun x => k))
  (at level 61, r at next level, right associativity) : js_scope.
Local Open Scope js_scope.

(** ** The helpers of [shared/empty.util] *)

(** Modelled from the spec: [hasValue] is imported from
    [shared/empty.util], which is not among the sources.  The spec speaks
    of a payload or an element being "absent" or present; a slot has a
    value when it is neither [undefined] nor [null]. *)
Definition hasValue {A : Type} (o : maybe A) : bool :=
  match o with
  | value _ => true
  | undefined | null => false
  end.

(** Modelled from the spec: [isNotEmpty] is imported from
    [shared/empty.util], which is not among the sources.  The spec calls
    the state it rejects "empty" and gives the missing sub-collection as
    its example.  An absent slot is empty; whether a present object
    counts as empty is left to [emptyObject]. *)
Definition isNotEmpty {A : Type} (emptyObject : A -> bool) (o : maybe A) : bool :=
  match o with
  | value a => negb (emptyObject a)
  | undefined | null => false
  end.

(** ** Data model *)

(** Modelled from the spec: [RemoteDataError] of [remote-data-error] is
    not among the sources; the spec's ErrorInfo has [statusCode],
    [statusText] and [message], in the order of the constructor call. *)
Record RemoteDataError : Type := new_RemoteDataError {
  statusCode : Z;
  statusText : string;
  message : string
}.

(** Modelled from the spec: [RemoteData] of [remote-data] is not among
    the sources; the spec's wrapper has these five fields, in the order
    of the constructor calls of the service. *)
Record RemoteData (T : Type) : Type := new_RemoteData {
  isRequestPending : bool;
  isResponsePending : bool;
  hasSucceeded : bool;
  error : maybe RemoteDataError;
  payload : maybe T
}.

Arguments new_RemoteData {T} _ _ _ _ _.
Arguments isRequestPending {T} _.
Arguments isResponsePending {T} _.
Arguments hasSucceeded {T} _.
Arguments error {T} _.
Arguments payload {T} _.

(** Modelled from the spec: the page information of [PaginatedList]. *)
Record PageInfo : Type := {
  pageSize : Z;
  totalElements : Z;
  pageNumber : Z
}.

(** Modelled from the spec: [PaginatedList] of [paginated-list] is not
    among the sources.  The service tests [page] with [hasValue] before
    it reads it, so the slot may be absent. *)
Record PaginatedList (T : Type) : Type := {
  page : maybe (list T);
  pageInfo : PageInfo
}.

Arguments page {T} _.
Arguments pageInfo {T} _.

(** Modelled from the spec: [FindListOptions] of [request.models] is not
    among the sources; the spec's query options surface.  An object
    literal sets some of the properties and leaves the others out. *)
Record FindListOptions : Type := {
  elementsPerPage : option Z;
  currentPage : option Z;
  sort : option string;
  filters : list (string * string)
}.

(** The object literal [{ elementsPerPage: n }]. *)
Definition elementsPerPage_only (n : Z) : FindListOptions :=
  {| elementsPerPage := Some n; currentPage := None; sort := None; filters := [] |}.

(** ** Observables

    An observable is described by what a subscriber sees of it: the
    requests issued to the REST layer on its behalf, the values
    delivered, in order of arrival and each with the time that has passed
    since the subscription, and the error notification that ends it, if
    there is one.  A value delivered during the subscription itself, as
    the elements of an array or a cached response are, has time 0. *)

Record Observable (R A : Type) : Type := {
  requests : list R;
  events : list (nat * A);
  errored : option (nat * exn)
}.

Arguments requests {R A} _.
Arguments events {R A} _.
Arguments errored {R A} _.

(** The values a subscriber receives, in order. *)
Definition emitted {R A : Type} (source : Observable R A) : list A :=
  List.map snd (events source).

Module Rx.
Section Operators.

Context {R : Type}.

(** An array used as an observable input: its elements, delivered during
    the subscription, then completion. *)
Definition from {A : Type} (arr : list A) : Observable R A :=
  {| requests := []; events := List.map (fun a => (0, a)) arr; errored := None |}.

(** The stream obtained from a collaborator: the call is recorded and
    the wrappers it delivers arrive at their times. *)
Definition fromCall {A : Type} (call : R) (arrivals : list (nat * A))
    : Observable R A :=
  {| requests := [call]; events := arrivals; errored := None |}.

Definition pipe {A B : Type} (source : Observable R A)
    (op : Observable R A -> Observable R B) : Observable R B :=
  op source.

(** The events of [map(project)]: each value is replaced as it arrives; a
    callback that throws ends the stream with that error, at that time. *)
Fixpoint mapEvents {A B : Type} (project : A -> result B)
    (arrivals : list (nat * A)) : list (nat * B) * option (nat * exn) :=
  match arrivals with
  | [] => ([], None)
  | (t, a) :: rest =>
      match project a with
      | Ok b => let (bs, e) := mapEvents project rest in ((t, b) :: bs, e)
      | Throw e => ([], Some (t, e))
      end
  end.

Definition map {A B : Type} (project : A -> result B)
    (source : Observable R A) : Observable R B :=
  let (bs, e) := mapEvents project (events source) in
  {| requests := requests source;
     events := bs;
     errored := match e with Some x => Some x | None => errored source end |}.

(** When the source of a [switchMap] next makes itself heard: the time of
    its next value, else of the error that ends it, if any. *)
Definition nextTime {A : Type} (rest : list (nat * A))
    (ending : option (nat * exn)) : option nat :=
  match rest with
  | (t, _) :: _ => Some t
  | [] => option_map fst ending
  end.

(** Whether an event of the inner stream subscribed at time [subscribed],
    arriving [delay] later, still finds that stream subscribed: it does
    when it arrives during the subscription itself or strictly before
    the source makes itself heard again. *)
Definition current (subscribed : nat) (next : option nat) (delay : nat) : bool :=
  match next with
  | None => true
  | Some t => Nat.eqb delay 0 || Nat.ltb (delay + subscribed) t
  end.

(** The events of an inner stream that arrive while it is subscribed;
    once it is unsubscribed nothing more arrives. *)
Fixpoint whileCurrent {A : Type} (subscribed : nat) (next : option nat)
    (arrivals : list (nat * A)) : list (nat * A) :=
  match arrivals with
  | [] => []
  | (delay, a) :: rest =>
      if current subscribed next delay
      then (delay, a) :: whileCurrent subscribed next rest
      else []
  end.

(** The events of an inner stream subscribed at time [subscribed], on the
    clock of the outer stream. *)
Definition shift {A : Type} (subscribed : nat) (arrivals : list (nat * A))
    : list (nat * A) :=
  List.map (fun e => (fst e + subscribed, snd e)) arrivals.

(** The error of an inner stream reaches the subscriber when all its
    events have and the stream is still subscribed. *)
Definition innerError {A : Type} (subscribed : nat) (next : option nat)
    (inner : Observable R A) : option (nat * exn) :=
  match errored inner with
  | Some (delay, e) =>
      if Nat.eqb (List.length (whileCurrent subscribed next (events inner)))
                 (List.length (events inner))
         && current subscribed next delay
      then Some (delay + subscribed, e)
      else None
  | None => None
  end.

(** [switchMap(project)] over the events of its source: each value is
    projected to an inner stream, which is subscribed to (its requests
    are issued) and listened to until the source makes itself heard
    again.  A callback that throws, or an inner stream that errors while
    subscribed, ends the result. *)
Fixpoint switchEvents {A B : Type} (project : A -> result (Observable R B))
    (arrivals : list (nat * A)) (ending : option (nat * exn)) : Observable R B :=
  match arrivals with
  | [] => {| requests := []; events := []; errored := ending |}
  | (t, a) :: rest =>
      match project a with
      | Throw e => {| requests := []; events := []; errored := Some (t, e) |}
      | Ok inner =>
          let next := nextTime rest ending in
          let delivered := shift t (whileCurrent t next (events inner)) in
          match innerError t next inner with
          | Some failure =>
              {| requests := requests inner;
                 events := delivered;
                 errored := Some failure |}
          | None =>
              let later := switchEvents project rest ending in
              {| requests := requests inner ++ requests later;
                 events := delivered ++ events later;
                 errored := errored later |}
          end
      end
  end.

Definition switchMap {A B : Type} (project : A -> result (Observable R B))
    (source : Observable R A) : Observable R B :=
  let switched := switchEvents project (events source) (errored source) in
  {| requests := requests source ++ requests switched;
     events := events switched;
     errored := errored switched |}.

End Operators.
End Rx.

(** ** A sample repository

    Concrete items, bundles and bitstreams on which the operations can be
    run: item 1 has a THUMBNAIL bundle with three bitstreams, item 2 has
    none (the bundle lookup fails with a 404), item 3 has an empty
    THUMBNAIL bundle, and the listing of item 4 fails while a payload
    from an earlier response is still attached to the wrapper.  The
    wrappers of the bundle lookup arrive 10 ticks apart, those of a
    listing one tick apart, the first of each during the subscription. *)

Module Sample.

Record Bundle : Type := { bundleName : string; bitstreamsHref : string }.

Record Bitstream : Type := { name : string }.

Definition thumbnailsOf (href : string) : Bundle :=
  {| bundleName := "THUMBNAIL"; bitstreamsHref := href |}.

Definition map_png : Bitstream := {| name := "map.png.jpg" |}.
Definition cover_jpg : Bitstream := {| name := "cover.jpg.jpg" |}.
Definition cover_png : Bitstream := {| name := "cover.jpg.png" |}.
Definition original_cover : Bitstream := {| name := "cover.jpg" |}.
Definition original_poster : Bitstream := {| name := "poster.tif" |}.

Definition pending {T : Type} : RemoteData T :=
  new_RemoteData true false false undefined undefined.

Definition succeeded {T : Type} (t : T) : RemoteData T :=
  new_RemoteData false false true undefined (value t).

Definition failed {T : Type} (code : Z) (text : string) (stale : maybe T) : RemoteData T :=
  new_RemoteData false false false (value (new_RemoteDataError code text text)) stale.

Definition bundleWrappers (item : nat) (bundleName : string)
    : list (RemoteData Bundle) :=
  if String.eqb bundleName "THUMBNAIL" then
    match item with
    | 1%nat => [pending; succeeded (thumbnailsOf "/bundles/1/bitstreams")]
    | 2%nat => [pending; failed 404 "Not found" undefined]
    | 3%nat => [succeeded (thumbnailsOf "/bundles/3/bitstreams")]
    | 4%nat => [succeeded (thumbnailsOf "/bundles/4/bitstreams")]
    | _ => []
    end
  else [].

(** The page a server returns: at most [elementsPerPage] elements. *)
Definition paged (options : maybe FindListOptions) (all : list Bitstream)
    : PaginatedList Bitstream :=
  let size :=
    match options with
    | value o => match elementsPerPage o with Some n => n | None => 20%Z end
    | undefined | null => 20%Z
    end in
  {| page := value (if (size <? Z.of_nat (List.length all))%Z
                    then firstn (Z.to_nat size) all else all);
     pageInfo := {| pageSize := size;
                    totalElements := Z.of_nat (List.length all);
                    pageNumber := 0 |} |}.

Definition listWrappers (href : string) (options : maybe FindListOptions)
    (linksToFollow : list string) : list (RemoteData (PaginatedList Bitstream)) :=
  if String.eqb href "/bundles/1/bitstreams" then
    [pending; succeeded (paged options [map_png; cover_jpg; cover_png])]
  else if String.eqb href "/bundles/3/bitstreams" then
    [succeeded (paged options [])]
  else if String.eqb href "/bundles/4/bitstreams" then
    [failed 500 "Internal Server Error" (value (paged options [cover_jpg]))]
  else [].

Definition neverEmpty (bundle : Bundle) : bool := false.

(** The values with their times of arrival: [start], [start + step], ... *)
Fixpoint stamp {T : Type} (start step : nat) (values : list T) : list (nat * T) :=
  match values with
  | [] => []
  | v :: rest => (start, v) :: stamp (start + step) step rest
  end.

Definition bundleEvents (item : nat) (bundleName : string)
    : list (nat * RemoteData Bundle) :=
  stamp 0 10 (bundleWrappers item bundleName).

Definition listEvents (href : string) (options : maybe FindListOptions)
    (linksToFollow : list string)
    : list (nat * RemoteData (PaginatedList Bitstream)) :=
  stamp 0 1 (listWrappers href options linksToFollow).

End Sample.

(** A second repository for the edges: the only wrapper of the listing
    carries a payload whose [page] is absent. *)

Module Edge.

Definition noPage : PaginatedList Sample.Bitstream :=
  {| page := undefined;
     pageInfo := {| pageSize := 1; totalElements := 0; pageNumber := 0 |} |}.

Definition bundleWrappers (item : nat) (bundleName : string)
    : list (RemoteData Sample.Bundle) :=
  [Sample.succeeded (Sample.thumbnailsOf "/bundles/5/bitstreams")].

Definition listWrappers (href : string) (options : maybe FindListOptions)
    (linksToFollow : list string)
    : list (RemoteData (PaginatedList Sample.Bitstream)) :=
  [Sample.succeeded noPage].

Definition bundleEvents (item : nat) (bundleName : string)
    : list (nat * RemoteData Sample.Bundle) :=
  Sample.stamp 0 10 (bundleWrappers item bundleName).

Definition listEvents (href : string) (options : maybe FindListOptions)
    (linksToFollow : list string)
    : list (nat * RemoteData (PaginatedList Sample.Bitstream)) :=
  Sample.stamp 0 1 (listWrappers href options linksToFollow).

End Edge.

(** A third repository, where the bundle lookup is heard twice: it
    delivers the THUMBNAIL bundle A at once and the bundle B three ticks
    later.  Each listing answers with a pending wrapper at once and with
    its page five ticks later, so the page of A arrives when the listing
    of A has been dropped. *)

Module Race.

Definition a_jpg : Sample.Bitstream := {| Sample.name := "a.jpg" |}.
Definition b_jpg : Sample.Bitstream := {| Sample.name := "b.jpg" |}.

Definition pageOf (bitstream : Sample.Bitstream) : PaginatedList Sample.Bitstream :=
  {| page := value [bitstream];
     pageInfo := {| pageSize := 1; totalElements := 1; pageNumber := 0 |} |}.

Definition bundleEvents (item : nat) (bundleName : string)
    : list (nat * RemoteData Sample.Bundle) :=
  [(0, Sample.succeeded (Sample.thumbnailsOf "/bundles/a/bitstreams"));
   (3, Sample.succeeded (Sample.thumbnailsOf "/bundles/b/bitstreams"))].

Definition listEvents (href : string) (options : maybe FindListOptions)
    (linksToFollow : list string)
    : list (nat * RemoteData (PaginatedList Sample.Bitstream)) :=
  if String.eqb href "/bundles/a/bitstreams" then
    [(0, Sample.pending); (5, Sample.succeeded (pageOf a_jpg))]
  else
    [(0, Sample.pending); (5, Sample.succeeded (pageOf b_jpg))].

(** The same bundle lookup when bundle B comes nine ticks after bundle A:
    the page of A arrives in time. *)
Definition patientBundleEvents (item : nat) (bundleName : string)
    : list (nat * RemoteData Sample.Bundle) :=
  [(0, Sample.succeeded (Sample.thumbnailsOf "/bundles/a/bitstreams"));
   (9, Sample.succeeded (Sample.thumbnailsOf "/bundles/b/bitstreams"))].

End Race.

(** ** The service *)

Section BitstreamDataService.

(** The model classes of [core/shared] are not among the sources.  An
    [Item] is only handed on to the bundle service; of a [Bundle] the
    service reads [_links.bitstreams.href], of a [Bitstream] its [name];
    a [FollowLinkConfig] is only handed on to [findAllByHref]. *)
Variable Item : Type.
Variable Bundle : Type.
Variable Bitstream : Type.
Variable FollowLinkConfig : Type.

(** [bundle._links.bitstreams.href] *)
Variable links_bitstreams_href : Bundle -> string.

(** [bitstream.name] *)
Variable name : Bitstream -> string.

(** What [isEmpty] of [shared/empty.util] answers on a bundle object. *)
Variable emptyBundle : Bundle -> bool.

(** The requests the service hands to its collaborators. *)
Inductive Request : Type :=
| FindByItemAndName (item : Item) (bundleName : string)
| FindAllByHref (href : string) (options : maybe FindListOptions)
    (linksToFollow : list FollowLinkConfig).

(** What [bundleService.findByItemAndName(item, name)] delivers to a
    subscriber that stays subscribed: its wrappers in order of arrival,
    each with the time since the subscription. *)
Variable bundleEvents : Item -> string -> list (nat * RemoteData Bundle).

(** What [findAllByHref(href, options, ...linksToFollow)], inherited
    from [DataService], delivers to a subscriber that stays subscribed. *)
Variable listEvents :
  string -> maybe FindListOptions -> list FollowLinkConfig ->
  list (nat * RemoteData (PaginatedList Bitstream)).

(** The wrappers of the two collaborators, without their times. *)
Definition bundleWrappers (item : Item) (bundleName : string)
    : list (RemoteData Bundle) :=
  List.map snd (bundleEvents item bundleName).

Definition listWrappers (href : string) (options : maybe FindListOptions)
    (linksToFollow : list FollowLinkConfig)
    : list (RemoteData (PaginatedList Bitstream)) :=
  List.map snd (listEvents href options linksToFollow).

Definition bundleService_findByItemAndName (item : Item) (bundleName : string)
    : Observable Request (RemoteData Bundle) :=
  Rx.fromCall (FindByItemAndName item bundleName) (bundleEvents item bundleName).

Definition findAllByHref (href : string) (options : maybe FindListOptions)
    (linksToFollow : list FollowLinkConfig)
    : Observable Request (RemoteData (PaginatedList Bitstream)) :=
  Rx.fromCall (FindAllByHref href options linksToFollow)
              (listEvents href options linksToFollow).

(** What a stream of the service carries at run time.  The casts
    [as any] let one stream deliver wrappers of a bundle, of a list of
    bitstreams and of a bitstream; at run time a cast does nothing. *)
Inductive Any : Type :=
| OfBundle (bundle : Bundle)
| OfBitstreams (paginated : PaginatedList Bitstream)
| OfBitstream (bitstream : Bitstream).

(** [rd as any]: the same wrapper, its payload seen as [Any]. *)
Definition asAny {T : Type} (inj : T -> Any) (rd : RemoteData T) : RemoteData Any :=
  {| isRequestPending := isRequestPending rd;
     isResponsePending := isResponsePending rd;
     hasSucceeded := hasSucceeded rd;
     error := error rd;
     payload := maybe_map inj (payload rd) |}.

(** [findAllByBundle], lines 63-65.  The bundle is the value the caller
    holds, which the callers below read from a wrapper's payload. *)
Definition findAllByBundle (bundle : maybe Bundle) (options : maybe FindListOptions)
    (linksToFollow : list FollowLinkConfig)
    : result (Observable Request (RemoteData (PaginatedList Bitstream))) :=
  b <- deref bundle ;;
  Ok (findAllByHref (links_bitstreams_href b) options linksToFollow).

(** The guard [hasValue(rd.payload) && hasValue(rd.payload.page)]. *)
Definition hasPage (bitstreamRD : RemoteData (PaginatedList Bitstream)) : result bool :=
  and_then (hasValue (payload bitstreamRD))
           (paginated <- deref (payload bitstreamRD) ;; Ok (hasValue (page paginated))).

(** [getThumbnailFor], lines 72-96. *)
Definition getThumbnailFor (item : Item) : Observable Request (RemoteData Any) :=
  Rx.pipe (bundleService_findByItemAndName item "THUMBNAIL")
    (Rx.switchMap (fun bundleRD : RemoteData Bundle =>
      if isNotEmpty emptyBundle (payload bundleRD) then
        bitstreams <- findAllByBundle (payload bundleRD)
                        (value (elementsPerPage_only 1)) [] ;;
        Ok (Rx.pipe bitstreams
          (Rx.map (fun bitstreamRD : RemoteData (PaginatedList Bitstream) =>
            guard <- hasPage bitstreamRD ;;
            if guard then
              paginated <- deref (payload bitstreamRD) ;;
              elements <- deref (page paginated) ;;
              Ok (new_RemoteData false false true undefined
                    (maybe_map OfBitstream (index elements 0)))
            else
              Ok (asAny OfBitstreams bitstreamRD))))
      else
        Ok (Rx.from [asAny OfBundle bundleRD]))).

(** [getMatchingThumbnail], lines 108-145. *)
Definition getMatchingThumbnail (item : Item) (bitstreamInOriginal : Bitstream)
    : Observable Request (RemoteData Any) :=
  Rx.pipe (bundleService_findByItemAndName item "THUMBNAIL")
    (Rx.switchMap (fun bundleRD : RemoteData Bundle =>
      if isNotEmpty emptyBundle (payload bundleRD) then
        bitstreams <- findAllByBundle (payload bundleRD)
                        (value (elementsPerPage_only MAX_SAFE_INTEGER)) [] ;;
        Ok (Rx.pipe bitstreams
          (Rx.map (fun bitstreamRD : RemoteData (PaginatedList Bitstream) =>
            guard <- hasPage bitstreamRD ;;
            if guard then
              paginated <- deref (payload bitstreamRD) ;;
              elements <- deref (page paginated) ;;
              let matchingThumbnail :=
                find (fun thumbnail : Bitstream =>
                        startsWith (name thumbnail) (name bitstreamInOriginal))
                     elements in
              if hasValue matchingThumbnail then
                Ok (new_RemoteData false false true undefined
                      (maybe_map OfBitstream matchingThumbnail))
              else
                Ok (new_RemoteData false false false
                      (value (new_RemoteDataError 404 "404" "No matching thumbnail found"))
                      undefined)
            else
              Ok (asAny OfBitstreams bitstreamRD))))
      else
        Ok (Rx.from [asAny OfBundle bundleRD]))).

(** The wrappers of a list stream, seen as [Any]; at run time nothing
    happens to them. *)
Definition anyList (source : Observable Request (RemoteData (PaginatedList Bitstream)))
    : Observable Request (RemoteData Any) :=
  {| requests := requests source;
     events := List.map (fun e => (fst e, asAny OfBitstreams (snd e))) (events source);
     errored := errored source |}.

(** [findAllByItemAndBundleName], lines 158-168. *)
Definition findAllByItemAndBundleName (item : Item) (bundleName : string)
    (options : maybe FindListOptions) (linksToFollow : list FollowLinkConfig)
    : Observable Request (RemoteData Any) :=
  Rx.pipe (bundleService_findByItemAndName item bundleName)
    (Rx.switchMap (fun bundleRD : RemoteData Bundle =>
      if hasValue (payload bundleRD) then
        bitstreams <- findAllByBundle (payload bundleRD) options linksToFollow ;;
        Ok (anyList bitstreams)
      else
        Ok (Rx.from [asAny OfBundle bundleRD]))).


(** ** Normal forms

    What the callbacks and the streams amount to once the guards have
    been seen to protect every property read.  They are used to reason
    about the operations above, which they are proved equal to. *)

(** The callback of [map] in [getThumbnailFor]. *)
Definition firstOfPage (bitstreamRD : RemoteData (PaginatedList Bitstream))
    : RemoteData Any :=
  match payload bitstreamRD with
  | value paginated =>
      match page paginated with
      | value elements =>
          new_RemoteData false false true undefined
            (maybe_map OfBitstream (index elements 0))
      | undefined | null => asAny OfBitstreams bitstreamRD
      end
  | undefined | null => asAny OfBitstreams bitstreamRD
  end.

Definition notFound : RemoteData Any :=
  new_RemoteData false false false
    (value (new_RemoteDataError 404 "404" "No matching thumbnail found"))
    undefined.

(** The callback of [map] in [getMatchingThumbnail]. *)
Definition matchInPage (bitstreamInOriginal : Bitstream)
    (bitstreamRD : RemoteData (PaginatedList Bitstream)) : RemoteData Any :=
  match payload bitstreamRD with
  | value paginated =>
      match page paginated with
      | value elements =>
          match List.find (fun thumbnail =>
                   startsWith (name thumbnail) (name bitstreamInOriginal))
                 elements with
          | Some thumbnail =>
              new_RemoteData false false true undefined (value (OfBitstream thumbnail))
          | None => notFound
          end
      | undefined | null => asAny OfBitstreams bitstreamRD
      end
  | undefined | null => asAny OfBitstreams bitstreamRD
  end.

(** The inner stream of the two thumbnail lookups for one wrapper of the
    bundle lookup, as it would be delivered if it stayed subscribed. *)
Definition thumbnailInner (options : maybe FindListOptions)
    (perWrapper : RemoteData (PaginatedList Bitstream) -> RemoteData Any)
    (bundleRD : RemoteData Bundle) : Observable Request (RemoteData Any) :=
  match payload bundleRD with
  | value bundle =>
      if emptyBundle bundle then Rx.from [asAny OfBundle bundleRD]
      else
        {| requests := [FindAllByHref (links_bitstreams_href bundle) options []];
           events := List.map (fun e => (fst e, perWrapper (snd e)))
                       (listEvents (links_bitstreams_href bundle) options []);
           errored := None |}
  | undefined | null => Rx.from [asAny OfBundle bundleRD]
  end.

(** The inner stream of [findAllByItemAndBundleName] for one wrapper of
    the bundle lookup. *)
Definition listInner (options : maybe FindListOptions)
    (linksToFollow : list FollowLinkConfig)
    (bundleRD : RemoteData Bundle) : Observable Request (RemoteData Any) :=
  match payload bundleRD with
  | value bundle =>
      anyList (findAllByHref (links_bitstreams_href bundle) options linksToFollow)
  | undefined | null => Rx.from [asAny OfBundle bundleRD]
  end.

(** What reaches the subscriber of inner streams that never fail, each
    listened to until the next value of the source arrives. *)
Fixpoint delivered {A B : Type} (inner : A -> Observable Request B)
    (arrivals : list (nat * A)) : list (nat * B) :=
  match arrivals with
  | [] => []
  | (t, a) :: rest =>
      (Rx.shift t (Rx.whileCurrent t (Rx.nextTime rest None) (events (inner a)))
       ++ delivered inner rest)%list
  end.

(** All inner streams of a bundle lookup, each until the next. *)
Definition collect (inner : RemoteData Bundle -> Observable Request (RemoteData Any))
    (item : Item) (bundleName : string) : Observable Request (RemoteData Any) :=
  {| requests := FindByItemAndName item bundleName
                 :: flat_map (fun rd => requests (inner rd)) (bundleWrappers item bundleName);
     events := delivered inner (bundleEvents item bundleName);
     errored := None |}.

(** ** Properties of wrappers *)

(** The invariant of the wrapper: a succeeded wrapper carries no error,
    and one that has not succeeded carries one. *)
Definition wrapperInvariant {T : Type} (w : RemoteData T) : Prop :=
  (hasSucceeded w = true -> hasValue (error w) = false) /\
  (hasSucceeded w = false -> hasValue (error w) = true).

(** A wrapper in a terminal failed state. *)
Definition isFailed {T : Type} (w : RemoteData T) : Prop :=
  hasSucceeded w = false /\ hasValue (error w) = true.

(** The wrappers built by the three [new RemoteData(...)] of the service. *)
Definition constructedByService (w : RemoteData Any) : Prop :=
  (exists p, w = new_RemoteData false false true undefined p) \/
  w = new_RemoteData false false false
        (value (new_RemoteDataError 404 "404" "No matching thumbnail found"))
        undefined.

(** A wrapper of a collaborator, handed on through [as any]. *)
Definition passedOn (item : Item) (w : RemoteData Any) : Prop :=
  (exists rd,
     In rd (bundleWrappers item "THUMBNAIL") /\ w = asAny OfBundle rd) \/
  (exists href options rd,
     In rd (listWrappers href options []) /\ w = asAny OfBitstreams rd).

(** ** Arrival while a listing is current

    The bundle lookup delivered a wrapper at time [subscribed], for which
    a listing was requested, and delivers the wrappers [later] after it.
    The wrapper [a] of that listing arrives while the listing is still
    the current one when it and every wrapper before it arrive during
    the subscription itself or strictly before the first of [later] does;
    when there is no later wrapper, every wrapper of the listing does. *)
Definition arrivesWhileCurrent {A B : Type} (subscribed : nat)
    (later : list (nat * B)) (arrivals : list (nat * A)) (a : A) : Prop :=
  exists before delay after,
    arrivals = (before ++ (delay, a) :: after)%list /\
    (forall e, In e before ->
       Rx.current subscribed (Rx.nextTime later None) (fst e) = true) /\
    Rx.current subscribed (Rx.nextTime later None) delay = true.

(** ** The composition of the specification

    [findAllByItemAndBundleName] as the specification describes it,
    written out wrapper by wrapper: the bundle service resolves the named
    bundle; for each wrapper it delivers, when the payload is present
    [findAllByHref] is called on the [bitstreams] link of the bundle with
    the options and the links to follow, and its wrappers are emitted
    until the bundle service delivers again; when the payload is absent
    the bundle wrapper itself is emitted. *)

Fixpoint listingsRequested (options : maybe FindListOptions)
    (linksToFollow : list FollowLinkConfig)
    (resolved : list (nat * RemoteData Bundle)) : list Request :=
  match resolved with
  | [] => []
  | (_, bundleRD) :: later =>
      match payload bundleRD with
      | value bundle =>
          FindAllByHref (links_bitstreams_href bundle) options linksToFollow
          :: listingsRequested options linksToFollow later
      | undefined | null => listingsRequested options linksToFollow later
      end
  end.

Fixpoint listingsEmitted (options : maybe FindListOptions)
    (linksToFollow : list FollowLinkConfig)
    (resolved : list (nat * RemoteData Bundle))
    : list (nat * RemoteData Any) :=
  match resolved with
  | [] => []
  | (t, bundleRD) :: later =>
      (match payload bundleRD with
       | value bundle =>
           List.map (fun e => (fst e + t, asAny OfBitstreams (snd e)))
             (Rx.whileCurrent t (Rx.nextTime later None)
                (listEvents (links_bitstreams_href bundle) options linksToFollow))
       | undefined | null => [(t, asAny OfBundle bundleRD)]
       end ++ listingsEmitted options linksToFollow later)%list
  end.

Definition findAllByItemAndBundleName_spec (item : Item) (bundleName : string)
    (options : maybe FindListOptions) (linksToFollow : list FollowLinkConfig)
    : Observable Request (RemoteData Any) :=
  {| requests := FindByItemAndName item bundleName
                 :: listingsRequested options linksToFollow
                      (bundleEvents item bundleName);
     events := listingsEmitted options linksToFollow (bundleEvents item bundleName);
     errored := None |}.

(** ** Facts about the operators *)

Lemma mapEvents_total (A B : Type) (project : A -> result B) (f : A -> B)
    (arrivals : list (nat * A)) :
  (forall a, project a = Ok (f a)) ->
  Rx.mapEvents project arrivals
  = (List.map (fun e => (fst e, f (snd e))) arrivals, None).
Proof.
  intros Hp. induction arrivals as [| [t a] rest IH]; simpl.
  - reflexivity.
  - rewrite Hp, IH. reflexivity.
Qed.

Lemma map_total (A B : Type) (project : A -> result B) (f : A -> B)
    (source : Observable Request A) :
  (forall a, project a = Ok (f a)) ->
  Rx.map project source =
  {| requests := requests source;
     events := List.map (fun e => (fst e, f (snd e))) (events source);
     errored := errored source |}.
Proof.
  intros Hp. unfold Rx.map. rewrite (mapEvents_total _ _ _ f) by exact Hp.
  reflexivity.
Qed.

Lemma switchEvents_total (A B : Type)
    (project : A -> result (Observable Request B))
    (inner : A -> Observable Request B) (arrivals : list (nat * A)) :
  (forall a, project a = Ok (inner a)) ->
  (forall a, errored (inner a) = None) ->
  Rx.switchEvents project arrivals None =
  {| requests := flat_map (fun a => requests (inner a)) (List.map snd arrivals);
     events := delivered inner arrivals;
     errored := None |}.
Proof.
  intros Hp He. induction arrivals as [| [t a] rest IH]; simpl.
  - reflexivity.
  - rewrite Hp. unfold Rx.innerError. rewrite He, IH. reflexivity.
Qed.

Lemma switchMap_total (inner : RemoteData Bundle -> Observable Request (RemoteData Any))
    (project : RemoteData Bundle -> result (Observable Request (RemoteData Any)))
    (item : Item) (bundleName : string) :
  (forall rd, project rd = Ok (inner rd)) ->
  (forall rd, errored (inner rd) = None) ->
  Rx.switchMap project (bundleService_findByItemAndName item bundleName) =
  collect inner item bundleName.
Proof.
  intros Hp He. unfold Rx.switchMap, bundleService_findByItemAndName, collect.
  simpl. rewrite (switchEvents_total _ _ _ inner) by assumption. reflexivity.
Qed.

Lemma current_at_once (subscribed : nat) (next : option nat) :
  Rx.current subscribed next 0 = true.
Proof.
  destruct next; reflexivity.
Qed.

Lemma In_whileCurrent (A : Type) (subscribed : nat) (next : option nat)
    (arrivals : list (nat * A)) (e : nat * A) :
  In e (Rx.whileCurrent subscribed next arrivals) -> In e arrivals.
Proof.
  induction arrivals as [| [d a] rest IH]; simpl; [tauto |].
  destruct (Rx.current subscribed next d); simpl; [| tauto].
  intros [H | H]; [left; exact H | right; exact (IH H)].
Qed.

Lemma whileCurrent_prefix (A : Type) (subscribed : nat) (next : option nat)
    (before after : list (nat * A)) (delay : nat) (a : A) :
  (forall e, In e before -> Rx.current subscribed next (fst e) = true) ->
  Rx.current subscribed next delay = true ->
  In (delay, a)
     (Rx.whileCurrent subscribed next (before ++ (delay, a) :: after)%list).
Proof.
  intros Hb Hd. induction before as [| [d x] before IH]; simpl.
  - rewrite Hd. left. reflexivity.
  - pose proof (Hb (d, x) (or_introl eq_refl)) as Hc. simpl in Hc.
    rewrite Hc. right. apply IH.
    intros e He. apply Hb. right. exact He.
Qed.

Lemma whileCurrent_map (A B : Type) (f : A -> B) (subscribed : nat)
    (next : option nat) (arrivals : list (nat * A)) :
  Rx.whileCurrent subscribed next
    (List.map (fun e => (fst e, f (snd e))) arrivals)
  = List.map (fun e => (fst e, f (snd e)))
      (Rx.whileCurrent subscribed next arrivals).
Proof.
  induction arrivals as [| [d a] rest IH]; simpl.
  - reflexivity.
  - destruct (Rx.current subscribed next d); simpl; [rewrite IH |]; reflexivity.
Qed.

Lemma whileCurrent_last (A : Type) (subscribed : nat) (arrivals : list (nat * A)) :
  Rx.whileCurrent subscribed None arrivals = arrivals.
Proof.
  induction arrivals as [| [d a] rest IH]; simpl; [| rewrite IH]; reflexivity.
Qed.

Lemma delivered_inv (A B : Type) (inner : A -> Observable Request B)
    (arrivals : list (nat * A)) (b : B) :
  In b (List.map snd (delivered inner arrivals)) ->
  exists a, In a (List.map snd arrivals) /\ In b (emitted (inner a)).
Proof.
  induction arrivals as [| [t a] rest IH]; simpl; [tauto |].
  rewrite map_app, in_app_iff. intros [H | H].
  - exists a. split; [left; reflexivity |].
    unfold Rx.shift in H. rewrite map_map in H. simpl in H.
    apply in_map_iff in H. destruct H as [e [Heq He]]. subst b.
    apply In_whileCurrent in He. unfold emitted. apply in_map. exact He.
  - destruct (IH H) as [a' [Ha' Hb]]. exists a'. split; [right; exact Ha' | exact Hb].
Qed.

Lemma delivered_intro (A B : Type) (inner : A -> Observable Request B)
    (earlier later : list (nat * A)) (t : nat) (a : A) (delay : nat) (b : B) :
  In (delay, b)
     (Rx.whileCurrent t (Rx.nextTime later None) (events (inner a))) ->
  In b (List.map snd (delivered inner (earlier ++ (t, a) :: later)%list)).
Proof.
  intros H. induction earlier as [| [t' a'] earlier IH]; simpl.
  - rewrite map_app, in_app_iff. left.
    unfold Rx.shift. rewrite map_map. simpl.
    apply in_map_iff. exists (delay, b). split; [reflexivity | exact H].
  - rewrite map_app, in_app_iff. right. exact IH.
Qed.

(** The guards matter: without a bundle, [findAllByBundle] throws, and an
    operator whose callback throws ends the stream with that error. *)
Example findAllByBundle_without_bundle (options : maybe FindListOptions)
    (linksToFollow : list FollowLinkConfig) :
  findAllByBundle undefined options linksToFollow = Throw TypeError /\
  findAllByBundle null options linksToFollow = Throw TypeError.
Proof.
  split; reflexivity.
Qed.

Example switchMap_callback_throws (item : Item) (bundleRD : RemoteData Bundle)
    (t : nat) :
  bundleEvents item "THUMBNAIL" = [(t, bundleRD)] ->
  errored (Rx.switchMap
             (fun rd : RemoteData Bundle =>
                findAllByBundle (@undefined Bundle) undefined [])
             (bundleService_findByItemAndName item "THUMBNAIL"))
  = Some (t, TypeError).
Proof.
  intros Hb. unfold Rx.switchMap, bundleService_findByItemAndName. simpl.
  rewrite Hb. reflexivity.
Qed.

(** ** The operations in normal form *)

Lemma hasPage_eq (bitstreamRD : RemoteData (PaginatedList Bitstream)) :
  hasPage bitstreamRD =
  Ok match payload bitstreamRD with
     | value paginated => hasValue (page paginated)
     | undefined | null => false
     end.
Proof.
  unfold hasPage. destruct (payload bitstreamRD); reflexivity.
Qed.

Lemma getThumbnailFor_eq (item : Item) :
  getThumbnailFor item =
  collect (thumbnailInner (value (elementsPerPage_only 1)) firstOfPage)
          item "THUMBNAIL".
Proof.
  unfold getThumbnailFor, Rx.pipe. apply switchMap_total.
  - intros rd. unfold thumbnailInner, findAllByBundle.
    destruct (payload rd) as [| | bundle]; simpl; try reflexivity.
    destruct (emptyBundle bundle); simpl; try reflexivity.
    rewrite (map_total _ _ _ firstOfPage); [reflexivity |].
    intros bitstreamRD. rewrite hasPage_eq. unfold firstOfPage. simpl.
    destruct (payload bitstreamRD) as [| | paginated]; simpl; try reflexivity.
    destruct (page paginated); reflexivity.
  - intros rd. unfold thumbnailInner.
    destruct (payload rd) as [| | bundle]; try reflexivity.
    destruct (emptyBundle bundle); reflexivity.
Qed.

Lemma getMatchingThumbnail_eq (item : Item) (bitstreamInOriginal : Bitstream) :
  getMatchingThumbnail item bitstreamInOriginal =
  collect (thumbnailInner (value (elementsPerPage_only MAX_SAFE_INTEGER))
                          (matchInPage bitstreamInOriginal))
          item "THUMBNAIL".
Proof.
  unfold getMatchingThumbnail, Rx.pipe. apply switchMap_total.
  - intros rd. unfold thumbnailInner, findAllByBundle.
    destruct (payload rd) as [| | bundle]; simpl; try reflexivity.
    destruct (emptyBundle bundle); simpl; try reflexivity.
    rewrite (map_total _ _ _ (matchInPage bitstreamInOriginal)); [reflexivity |].
    intros bitstreamRD. rewrite hasPage_eq. unfold matchInPage. simpl.
    destruct (payload bitstreamRD) as [| | paginated]; simpl; try reflexivity.
    destruct (page paginated) as [| | elements]; simpl; try reflexivity.
    unfold find. destruct (List.find _ elements); reflexivity.
  - intros rd. unfold thumbnailInner.
    destruct (payload rd) as [| | bundle]; try reflexivity.
    destruct (emptyBundle bundle); reflexivity.
Qed.

Lemma findAllByItemAndBundleName_eq (item : Item) (bundleName : string)
    (options : maybe FindListOptions) (linksToFollow : list FollowLinkConfig) :
  findAllByItemAndBundleName item bundleName options linksToFollow =
  collect (listInner options linksToFollow) item bundleName.
Proof.
  unfold findAllByItemAndBundleName, Rx.pipe. apply switchMap_total.
  - intros rd. unfold listInner, findAllByBundle.
    destruct (payload rd); reflexivity.
  - intros rd. unfold listInner. destruct (payload rd); reflexivity.
Qed.

(** A value the inner stream delivers during its subscription reaches
    the subscriber whatever the source does next. *)
Lemma collect_emits_at_once
    (inner : RemoteData Bundle -> Observable Request (RemoteData Any))
    (item : Item) (bundleName : string) (bundleRD : RemoteData Bundle)
    (w : RemoteData Any) :
  In bundleRD (bundleWrappers item bundleName) ->
  events (inner bundleRD) = [(0, w)] ->
  In w (emitted (collect inner item bundleName)).
Proof.
  intros Hb Hev. unfold bundleWrappers in Hb. apply in_map_iff in Hb.
  destruct Hb as [[t rd] [Heq Hin]]. simpl in Heq. subst rd.
  destruct (in_split _ _ Hin) as [earlier [later Hsplit]].
  unfold emitted, collect; simpl. rewrite Hsplit.
  apply (delivered_intro _ _ inner earlier later t bundleRD 0 w).
  rewrite Hev. simpl. rewrite current_at_once. left. reflexivity.
Qed.

(** A value the inner stream delivers while it is the current one reaches
    the subscriber. *)
Lemma collect_emits_current
    (inner : RemoteData Bundle -> Observable Request (RemoteData Any))
    (item : Item) (bundleName : string)
    (earlier later : list (nat * RemoteData Bundle)) (t : nat)
    (bundleRD : RemoteData Bundle) (delay : nat) (w : RemoteData Any) :
  bundleEvents item bundleName = (earlier ++ (t, bundleRD) :: later)%list ->
  In (delay, w)
     (Rx.whileCurrent t (Rx.nextTime later None) (events (inner bundleRD))) ->
  In w (emitted (collect inner item bundleName)).
Proof.
  intros Hsplit Hin. unfold emitted, collect; simpl. rewrite Hsplit.
  exact (delivered_intro _ _ inner earlier later t bundleRD delay w Hin).
Qed.

Lemma collect_emitted_inv (inner : RemoteData Bundle -> Observable Request (RemoteData Any))
    (item : Item) (bundleName : string) (w : RemoteData Any) :
  In w (emitted (collect inner item bundleName)) ->
  exists bundleRD,
    In bundleRD (bundleWrappers item bundleName) /\ In w (emitted (inner bundleRD)).
Proof.
  unfold emitted at 1, collect, bundleWrappers; simpl. apply delivered_inv.
Qed.

Lemma split_wrappers (item : Item) (bundleName : string)
    (earlier later : list (nat * RemoteData Bundle)) (t : nat)
    (bundleRD : RemoteData Bundle) :
  bundleEvents item bundleName = (earlier ++ (t, bundleRD) :: later)%list ->
  In bundleRD (bundleWrappers item bundleName).
Proof.
  intros Hsplit. unfold bundleWrappers. rewrite Hsplit.
  rewrite map_app. apply in_or_app. right. left. reflexivity.
Qed.

Lemma thumbnailInner_notEmpty (options : maybe FindListOptions)
    (perWrapper : RemoteData (PaginatedList Bitstream) -> RemoteData Any)
    (bundleRD : RemoteData Bundle) (bundle : Bundle) :
  payload bundleRD = value bundle ->
  isNotEmpty emptyBundle (payload bundleRD) = true ->
  thumbnailInner options perWrapper bundleRD =
  {| requests := [FindAllByHref (links_bitstreams_href bundle) options []];
     events := List.map (fun e => (fst e, perWrapper (snd e)))
                 (listEvents (links_bitstreams_href bundle) options []);
     errored := None |}.
Proof.
  intros Hp Hne. unfold thumbnailInner. rewrite Hp in *. simpl in Hne.
  destruct (emptyBundle bundle); [discriminate | reflexivity].
Qed.

Lemma thumbnailInner_empty (options : maybe FindListOptions)
    (perWrapper : RemoteData (PaginatedList Bitstream) -> RemoteData Any)
    (bundleRD : RemoteData Bundle) :
  isNotEmpty emptyBundle (payload bundleRD) = false ->
  thumbnailInner options perWrapper bundleRD = Rx.from [asAny OfBundle bundleRD].
Proof.
  intros He. unfold thumbnailInner.
  destruct (payload bundleRD) as [| | bundle]; try reflexivity.
  simpl in He. destruct (emptyBundle bundle); [reflexivity | discriminate].
Qed.

Lemma emitted_mapped (A B : Type) (f : A -> B) (calls : list Request)
    (arrivals : list (nat * A)) (ending : option (nat * exn)) :
  emitted {| requests := calls;
             events := List.map (fun e => (fst e, f (snd e))) arrivals;
             errored := ending |}
  = List.map f (List.map snd arrivals).
Proof.
  unfold emitted; simpl. rewrite !map_map. reflexivity.
Qed.

Lemma find_first (A : Type) (p : A -> bool) (before after : list A) (x : A) :
  (forall y, In y before -> p y = false) ->
  p x = true ->
  List.find p (before ++ x :: after) = Some x.
Proof.
  intros Hb Hx. induction before as [| y before IH]; simpl.
  - rewrite Hx. reflexivity.
  - rewrite (Hb y (or_introl eq_refl)). apply IH.
    intros z Hz. apply Hb. right. exact Hz.
Qed.

Lemma find_all_false (A : Type) (p : A -> bool) (l : list A) :
  (forall y, In y l -> p y = false) -> List.find p l = None.
Proof.
  intros Hl. induction l as [| y l IH]; simpl.
  - reflexivity.
  - rewrite (Hl y (or_introl eq_refl)). apply IH.
    intros z Hz. apply Hl. right. exact Hz.
Qed.

(** A wrapper of the listing behind a non-empty THUMBNAIL bundle that
    arrives while the listing is current reaches the subscriber as
    [perWrapper] makes it. *)
Lemma thumbnail_emits (options : maybe FindListOptions)
    (perWrapper : RemoteData (PaginatedList Bitstream) -> RemoteData Any)
    (item : Item) (earlier later : list (nat * RemoteData Bundle)) (t : nat)
    (bundleRD : RemoteData Bundle) (bundle : Bundle)
    (bitstreamRD : RemoteData (PaginatedList Bitstream)) :
  bundleEvents item "THUMBNAIL" = (earlier ++ (t, bundleRD) :: later)%list ->
  payload bundleRD = value bundle ->
  isNotEmpty emptyBundle (payload bundleRD) = true ->
  arrivesWhileCurrent t later
    (listEvents (links_bitstreams_href bundle) options []) bitstreamRD ->
  In (perWrapper bitstreamRD)
     (emitted (collect (thumbnailInner options perWrapper) item "THUMBNAIL")).
Proof.
  intros Hsplit Hp Hne [before [delay [after [Hl [Hbefore Hdelay]]]]].
  apply (collect_emits_current _ _ _ earlier later t bundleRD delay); [exact Hsplit |].
  rewrite (thumbnailInner_notEmpty _ _ _ bundle Hp Hne). simpl.
  rewrite whileCurrent_map. apply in_map_iff. exists (delay, bitstreamRD).
  split; [reflexivity |]. rewrite Hl. apply whileCurrent_prefix; assumption.
Qed.

(** Every wrapper of a thumbnail lookup is the bundle wrapper handed on,
    when its payload is empty, or what [perWrapper] makes of a wrapper of
    the listing. *)
Lemma thumbnail_emitted_inv (options : maybe FindListOptions)
    (perWrapper : RemoteData (PaginatedList Bitstream) -> RemoteData Any)
    (item : Item) (w : RemoteData Any) :
  In w (emitted (collect (thumbnailInner options perWrapper) item "THUMBNAIL")) ->
  (exists bundleRD,
     In bundleRD (bundleWrappers item "THUMBNAIL") /\
     isNotEmpty emptyBundle (payload bundleRD) = false /\
     w = asAny OfBundle bundleRD) \/
  (exists bundleRD bundle bitstreamRD,
     In bundleRD (bundleWrappers item "THUMBNAIL") /\
     payload bundleRD = value bundle /\
     In bitstreamRD (listWrappers (links_bitstreams_href bundle) options []) /\
     w = perWrapper bitstreamRD).
Proof.
  intros Hw. apply collect_emitted_inv in Hw. destruct Hw as [bundleRD [Hb Hw]].
  destruct (isNotEmpty emptyBundle (payload bundleRD)) eqn:Hne.
  - right. destruct (payload bundleRD) as [| | bundle] eqn:Hp;
      try discriminate Hne.
    assert (Hne' : isNotEmpty emptyBundle (payload bundleRD) = true)
      by (rewrite Hp; exact Hne).
    rewrite (thumbnailInner_notEmpty _ _ _ bundle Hp Hne') in Hw.
    rewrite emitted_mapped in Hw.
    apply in_map_iff in Hw. destruct Hw as [bitstreamRD [Heq Hl]].
    exists bundleRD, bundle, bitstreamRD. auto.
  - left. rewrite thumbnailInner_empty in Hw by exact Hne. simpl in Hw.
    destruct Hw as [Heq | []]. exists bundleRD. auto.
Qed.

Lemma thumbnail_requests_inv (options : maybe FindListOptions)
    (perWrapper : RemoteData (PaginatedList Bitstream) -> RemoteData Any)
    (item : Item) (r : Request) :
  In r (requests (collect (thumbnailInner options perWrapper) item "THUMBNAIL")) ->
  r = FindByItemAndName item "THUMBNAIL" \/
  exists href, r = FindAllByHref href options [].
Proof.
  unfold collect; simpl. intros [Hr | Hr]; [left; congruence |].
  right. apply in_flat_map in Hr. destruct Hr as [bundleRD [_ Hr]].
  unfold thumbnailInner in Hr.
  destruct (payload bundleRD) as [| | bundle]; simpl in Hr; try contradiction.
  destruct (emptyBundle bundle); simpl in Hr; try contradiction.
  destruct Hr as [Hr | []]. eauto.
Qed.

Lemma thumbnail_requests (options : maybe FindListOptions)
    (perWrapper : RemoteData (PaginatedList Bitstream) -> RemoteData Any)
    (item : Item) (bundleRD : RemoteData Bundle) (bundle : Bundle) :
  In bundleRD (bundleWrappers item "THUMBNAIL") ->
  payload bundleRD = value bundle ->
  isNotEmpty emptyBundle (payload bundleRD) = true ->
  In (FindAllByHref (links_bitstreams_href bundle) options [])
     (requests (collect (thumbnailInner options perWrapper) item "THUMBNAIL")).
Proof.
  intros Hb Hp Hne. unfold collect; simpl. right. apply in_flat_map.
  exists bundleRD. split; [exact Hb |].
  rewrite (thumbnailInner_notEmpty _ _ _ bundle Hp Hne). simpl. left. reflexivity.
Qed.

Lemma firstOfPage_cases (bitstreamRD : RemoteData (PaginatedList Bitstream)) :
  (hasValue (payload bitstreamRD) = false /\
   firstOfPage bitstreamRD = asAny OfBitstreams bitstreamRD) \/
  (exists paginated,
     payload bitstreamRD = value paginated /\ hasValue (page paginated) = false /\
     firstOfPage bitstreamRD = asAny OfBitstreams bitstreamRD) \/
  (exists p, firstOfPage bitstreamRD = new_RemoteData false false true undefined p).
Proof.
  unfold firstOfPage.
  destruct (payload bitstreamRD) as [| | paginated];
    [left; split; reflexivity | left; split; reflexivity |].
  right. destruct (page paginated) as [| | elements] eqn:Hpg.
  - left. exists paginated. rewrite Hpg. repeat split.
  - left. exists paginated. rewrite Hpg. repeat split.
  - right. eexists. reflexivity.
Qed.

Lemma matchInPage_cases (bitstreamInOriginal : Bitstream)
    (bitstreamRD : RemoteData (PaginatedList Bitstream)) :
  matchInPage bitstreamInOriginal bitstreamRD = asAny OfBitstreams bitstreamRD \/
  constructedByService (matchInPage bitstreamInOriginal bitstreamRD).
Proof.
  unfold matchInPage, constructedByService, notFound.
  destruct (payload bitstreamRD) as [| | paginated]; auto.
  destruct (page paginated) as [| | elements]; auto.
  destruct (List.find _ elements); eauto.
Qed.

Lemma constructed_invariant (w : RemoteData Any) :
  constructedByService w -> wrapperInvariant w.
Proof.
  intros [[p Hw] | Hw]; subst w; split; simpl; intros H;
    try reflexivity; discriminate H.
Qed.

Lemma absent_is_empty (o : maybe Bundle) :
  hasValue o = false -> isNotEmpty emptyBundle o = false.
Proof.
  destruct o; simpl; intros H; [reflexivity | reflexivity | discriminate H].
Qed.

Lemma firstOfPage_absent (bitstreamRD : RemoteData (PaginatedList Bitstream)) :
  hasValue (payload bitstreamRD) = false ->
  firstOfPage bitstreamRD = asAny OfBitstreams bitstreamRD.
Proof.
  unfold firstOfPage. destruct (payload bitstreamRD); simpl; intros H;
    [reflexivity | reflexivity | discriminate H].
Qed.

Lemma matchInPage_absent (bitstreamInOriginal : Bitstream)
    (bitstreamRD : RemoteData (PaginatedList Bitstream)) :
  hasValue (payload bitstreamRD) = false ->
  matchInPage bitstreamInOriginal bitstreamRD = asAny OfBitstreams bitstreamRD.
Proof.
  unfold matchInPage. destruct (payload bitstreamRD); simpl; intros H;
    [reflexivity | reflexivity | discriminate H].
Qed.

(** A bundle wrapper whose payload is empty is handed on at once. *)
Lemma thumbnail_hands_on (options : maybe FindListOptions)
    (perWrapper : RemoteData (PaginatedList Bitstream) -> RemoteData Any)
    (item : Item) (bundleRD : RemoteData Bundle) :
  In bundleRD (bundleWrappers item "THUMBNAIL") ->
  isNotEmpty emptyBundle (payload bundleRD) = false ->
  In (asAny OfBundle bundleRD)
     (emitted (collect (thumbnailInner options perWrapper) item "THUMBNAIL")).
Proof.
  intros Hb He. apply (collect_emits_at_once _ _ _ bundleRD); [exact Hb |].
  rewrite thumbnailInner_empty by exact He. reflexivity.
Qed.

(** ** The claims *)

(** C1. When the THUMBNAIL bundle lookup delivers a wrapper with a
    non-empty payload and the listing of its bitstreams delivers, while it
    is still the current one, a page none of whose bitstreams has a name
    starting with the name of the original, [getMatchingThumbnail] emits a
    wrapper with [hasSucceeded = false] whose error has status code 404
    and the message "No matching thumbnail found". *)
Theorem getMatchingThumbnail_no_match (item : Item) (bitstreamInOriginal : Bitstream)
    (earlier later : list (nat * RemoteData Bundle)) (t : nat)
    (bundleRD : RemoteData Bundle) (bundle : Bundle)
    (bitstreamRD : RemoteData (PaginatedList Bitstream))
    (paginated : PaginatedList Bitstream) (elements : list Bitstream) :
  bundleEvents item "THUMBNAIL" = (earlier ++ (t, bundleRD) :: later)%list ->
  payload bundleRD = value bundle ->
  isNotEmpty emptyBundle (payload bundleRD) = true ->
  arrivesWhileCurrent t later
    (listEvents (links_bitstreams_href bundle)
       (value (elementsPerPage_only MAX_SAFE_INTEGER)) [])
    bitstreamRD ->
  payload bitstreamRD = value paginated ->
  page paginated = value elements ->
  (forall thumbnail, In thumbnail elements ->
     startsWith (name thumbnail) (name bitstreamInOriginal) = false) ->
  exists w e,
    In w (emitted (getMatchingThumbnail item bitstreamInOriginal)) /\
    hasSucceeded w = false /\
    error w = value e /\
    statusCode e = 404%Z /\
    statusText e = "404" /\
    message e = "No matching thumbnail found" /\
    payload w = undefined.
Proof.
  intros Hb Hp Hne Hl Hpl Hpg Hnone.
  exists notFound, (new_RemoteDataError 404 "404" "No matching thumbnail found").
  split; [| repeat split].
  rewrite getMatchingThumbnail_eq.
  replace notFound with (matchInPage bitstreamInOriginal bitstreamRD).
  - apply (thumbnail_emits _ _ _ earlier later t bundleRD bundle); assumption.
  - unfold matchInPage. rewrite Hpl, Hpg.
    rewrite find_all_false by exact Hnone. reflexivity.
Qed.

(** C3. When the THUMBNAIL bundle lookup delivers a wrapper with a
    non-empty payload and the listing requested with
    [elementsPerPage = 1] delivers, while it is still the current one, a
    page with at least one element, [getThumbnailFor] emits the succeeded
    wrapper, without error, whose payload is the first element of that
    page. *)
Theorem getThumbnailFor_first_element (item : Item)
    (earlier later : list (nat * RemoteData Bundle)) (t : nat)
    (bundleRD : RemoteData Bundle) (bundle : Bundle)
    (bitstreamRD : RemoteData (PaginatedList Bitstream))
    (paginated : PaginatedList Bitstream) (first : Bitstream) (others : list Bitstream) :
  bundleEvents item "THUMBNAIL" = (earlier ++ (t, bundleRD) :: later)%list ->
  payload bundleRD = value bundle ->
  isNotEmpty emptyBundle (payload bundleRD) = true ->
  arrivesWhileCurrent t later
    (listEvents (links_bitstreams_href bundle) (value (elementsPerPage_only 1)) [])
    bitstreamRD ->
  payload bitstreamRD = value paginated ->
  page paginated = value (first :: others) ->
  In (new_RemoteData false false true undefined (value (OfBitstream first)))
     (emitted (getThumbnailFor item)) /\
  In (FindAllByHref (links_bitstreams_href bundle) (value (elementsPerPage_only 1)) [])
     (requests (getThumbnailFor item)) /\
  elementsPerPage (elementsPerPage_only 1) = Some 1%Z.
Proof.
  intros Hb Hp Hne Hl Hpl Hpg. rewrite getThumbnailFor_eq.
  split; [| split; [| reflexivity]].
  - replace (new_RemoteData false false true undefined (value (OfBitstream first)))
      with (firstOfPage bitstreamRD).
    + apply (thumbnail_emits _ _ _ earlier later t bundleRD bundle); assumption.
    + unfold firstOfPage. rewrite Hpl, Hpg. reflexivity.
  - apply (thumbnail_requests _ _ _ bundleRD bundle); try assumption.
    exact (split_wrappers _ _ _ _ _ _ Hb).
Qed.

(** C4. When the THUMBNAIL bundle lookup delivers a wrapper with a
    non-empty payload and the page of its bitstreams, delivered while the
    listing is still the current one, contains a bitstream whose name
    starts with the name of the original, [getMatchingThumbnail] emits the
    succeeded wrapper whose payload is the first such bitstream in the
    order of the page. *)
Theorem getMatchingThumbnail_first_match (item : Item) (bitstreamInOriginal : Bitstream)
    (earlier later : list (nat * RemoteData Bundle)) (t : nat)
    (bundleRD : RemoteData Bundle) (bundle : Bundle)
    (bitstreamRD : RemoteData (PaginatedList Bitstream))
    (paginated : PaginatedList Bitstream)
    (before after : list Bitstream) (thumbnail : Bitstream) :
  bundleEvents item "THUMBNAIL" = (earlier ++ (t, bundleRD) :: later)%list ->
  payload bundleRD = value bundle ->
  isNotEmpty emptyBundle (payload bundleRD) = true ->
  arrivesWhileCurrent t later
    (listEvents (links_bitstreams_href bundle)
       (value (elementsPerPage_only MAX_SAFE_INTEGER)) [])
    bitstreamRD ->
  payload bitstreamRD = value paginated ->
  page paginated = value (before ++ thumbnail :: after)%list ->
  (forall earlierOne, In earlierOne before ->
     startsWith (name earlierOne) (name bitstreamInOriginal) = false) ->
  startsWith (name thumbnail) (name bitstreamInOriginal) = true ->
  In (new_RemoteData false false true undefined (value (OfBitstream thumbnail)))
     (emitted (getMatchingThumbnail item bitstreamInOriginal)).
Proof.
  intros Hb Hp Hne Hl Hpl Hpg Hbefore Hmatch. rewrite getMatchingThumbnail_eq.
  replace (new_RemoteData false false true undefined (value (OfBitstream thumbnail)))
    with (matchInPage bitstreamInOriginal bitstreamRD).
  - apply (thumbnail_emits _ _ _ earlier later t bundleRD bundle); assumption.
  - unfold matchInPage. rewrite Hpl, Hpg.
    rewrite (find_first _ _ before after thumbnail) by assumption. reflexivity.
Qed.

(** C5. When the THUMBNAIL bundle lookup delivers a wrapper whose payload
    is empty, [getThumbnailFor] emits that wrapper as it is, with every
    field unchanged, and the stream does not end with an error. *)
Theorem getThumbnailFor_empty_bundle (item : Item) (bundleRD : RemoteData Bundle) :
  In bundleRD (bundleWrappers item "THUMBNAIL") ->
  isNotEmpty emptyBundle (payload bundleRD) = false ->
  In (asAny OfBundle bundleRD) (emitted (getThumbnailFor item)) /\
  errored (getThumbnailFor item) = None /\
  isRequestPending (asAny OfBundle bundleRD) = isRequestPending bundleRD /\
  isResponsePending (asAny OfBundle bundleRD) = isResponsePending bundleRD /\
  hasSucceeded (asAny OfBundle bundleRD) = hasSucceeded bundleRD /\
  error (asAny OfBundle bundleRD) = error bundleRD /\
  payload (asAny OfBundle bundleRD) = maybe_map OfBundle (payload bundleRD).
Proof.
  intros Hb He. rewrite getThumbnailFor_eq. split; [| repeat split].
  apply thumbnail_hands_on; assumption.
Qed.

(** C9. When the THUMBNAIL bundle lookup delivers a wrapper with a
    non-empty payload and the listing delivers, while it is still the
    current one, a page of length zero, [getThumbnailFor] emits a wrapper
    with [hasSucceeded = true], no error and an absent payload. *)
Theorem getThumbnailFor_empty_page (item : Item)
    (earlier later : list (nat * RemoteData Bundle)) (t : nat)
    (bundleRD : RemoteData Bundle) (bundle : Bundle)
    (bitstreamRD : RemoteData (PaginatedList Bitstream))
    (paginated : PaginatedList Bitstream) :
  bundleEvents item "THUMBNAIL" = (earlier ++ (t, bundleRD) :: later)%list ->
  payload bundleRD = value bundle ->
  isNotEmpty emptyBundle (payload bundleRD) = true ->
  arrivesWhileCurrent t later
    (listEvents (links_bitstreams_href bundle) (value (elementsPerPage_only 1)) [])
    bitstreamRD ->
  payload bitstreamRD = value paginated ->
  page paginated = value [] ->
  In (new_RemoteData false false true undefined undefined)
     (emitted (getThumbnailFor item)).
Proof.
  intros Hb Hp Hne Hl Hpl Hpg. rewrite getThumbnailFor_eq.
  replace (new_RemoteData false false true undefined undefined)
    with (firstOfPage bitstreamRD).
  - apply (thumbnail_emits _ _ _ earlier later t bundleRD bundle); assumption.
  - unfold firstOfPage. rewrite Hpl, Hpg. reflexivity.
Qed.

Lemma listInner_requests (options : maybe FindListOptions)
    (linksToFollow : list FollowLinkConfig)
    (resolved : list (nat * RemoteData Bundle)) :
  flat_map (fun rd => requests (listInner options linksToFollow rd))
    (List.map snd resolved)
  = listingsRequested options linksToFollow resolved.
Proof.
  induction resolved as [| [t rd] later IH]; simpl; [reflexivity |].
  rewrite IH. unfold listInner. destruct (payload rd); reflexivity.
Qed.

Lemma listInner_delivered (options : maybe FindListOptions)
    (linksToFollow : list FollowLinkConfig)
    (resolved : list (nat * RemoteData Bundle)) :
  delivered (listInner options linksToFollow) resolved
  = listingsEmitted options linksToFollow resolved.
Proof.
  induction resolved as [| [t rd] later IH]; simpl; [reflexivity |].
  rewrite IH. f_equal. unfold listInner.
  destruct (payload rd) as [| | bundle]; simpl.
  - rewrite current_at_once. reflexivity.
  - rewrite current_at_once. reflexivity.
  - rewrite whileCurrent_map. unfold Rx.shift. rewrite map_map. reflexivity.
Qed.

Lemma list_emits (options : maybe FindListOptions)
    (linksToFollow : list FollowLinkConfig) (item : Item) (bundleName : string)
    (earlier later : list (nat * RemoteData Bundle)) (t : nat)
    (bundleRD : RemoteData Bundle) (bundle : Bundle)
    (bitstreamRD : RemoteData (PaginatedList Bitstream)) :
  bundleEvents item bundleName = (earlier ++ (t, bundleRD) :: later)%list ->
  payload bundleRD = value bundle ->
  arrivesWhileCurrent t later
    (listEvents (links_bitstreams_href bundle) options linksToFollow) bitstreamRD ->
  In (asAny OfBitstreams bitstreamRD)
     (emitted (collect (listInner options linksToFollow) item bundleName)).
Proof.
  intros Hsplit Hp [before [delay [after [Hl [Hbefore Hdelay]]]]].
  apply (collect_emits_current _ _ _ earlier later t bundleRD delay); [exact Hsplit |].
  unfold listInner. rewrite Hp. simpl.
  rewrite whileCurrent_map. apply in_map_iff. exists (delay, bitstreamRD).
  split; [reflexivity |]. rewrite Hl. apply whileCurrent_prefix; assumption.
Qed.

Lemma list_hands_on (options : maybe FindListOptions)
    (linksToFollow : list FollowLinkConfig) (item : Item) (bundleName : string)
    (bundleRD : RemoteData Bundle) :
  In bundleRD (bundleWrappers item bundleName) ->
  hasValue (payload bundleRD) = false ->
  In (asAny OfBundle bundleRD)
     (emitted (collect (listInner options linksToFollow) item bundleName)).
Proof.
  intros Hb Habs. apply (collect_emits_at_once _ _ _ bundleRD); [exact Hb |].
  unfold listInner. destruct (payload bundleRD);
    [reflexivity | reflexivity | discriminate Habs].
Qed.

Lemma list_requests (options : maybe FindListOptions)
    (linksToFollow : list FollowLinkConfig) (item : Item) (bundleName : string)
    (bundleRD : RemoteData Bundle) (bundle : Bundle) :
  In bundleRD (bundleWrappers item bundleName) ->
  payload bundleRD = value bundle ->
  In (FindAllByHref (links_bitstreams_href bundle) options linksToFollow)
     (requests (collect (listInner options linksToFollow) item bundleName)).
Proof.
  intros Hb Hp. unfold collect; simpl. right. apply in_flat_map.
  exists bundleRD. split; [exact Hb |].
  unfold listInner. rewrite Hp. simpl. left. reflexivity.
Qed.

(** C6. [findAllByItemAndBundleName] is the composition the specification
    describes: it produces, request by request and wrapper by wrapper,
    the stream written out in [findAllByItemAndBundleName_spec].
    [findAllByBundle] on a bundle is the call of [findAllByHref] on the
    [bitstreams] link of the bundle with the options and links given.
    For each bundle wrapper whose payload is present that listing is
    requested, and its wrappers that arrive while it is the current one
    are emitted; a bundle wrapper whose payload is absent is emitted
    itself. *)
Theorem findAllByItemAndBundleName_composition (item : Item) (bundleName : string)
    (options : maybe FindListOptions) (linksToFollow : list FollowLinkConfig) :
  findAllByItemAndBundleName item bundleName options linksToFollow =
  findAllByItemAndBundleName_spec item bundleName options linksToFollow /\
  (forall bundle : Bundle,
     findAllByBundle (value bundle) options linksToFollow =
     Ok {| requests :=
             [FindAllByHref (links_bitstreams_href bundle) options linksToFollow];
           events := listEvents (links_bitstreams_href bundle) options linksToFollow;
           errored := None |}) /\
  (forall (earlier later : list (nat * RemoteData Bundle)) (t : nat)
          (bundleRD : RemoteData Bundle) (bundle : Bundle)
          (bitstreamRD : RemoteData (PaginatedList Bitstream)),
     bundleEvents item bundleName = (earlier ++ (t, bundleRD) :: later)%list ->
     payload bundleRD = value bundle ->
     In (FindAllByHref (links_bitstreams_href bundle) options linksToFollow)
        (requests (findAllByItemAndBundleName item bundleName options linksToFollow)) /\
     (arrivesWhileCurrent t later
        (listEvents (links_bitstreams_href bundle) options linksToFollow)
        bitstreamRD ->
      In (asAny OfBitstreams bitstreamRD)
         (emitted (findAllByItemAndBundleName item bundleName options linksToFollow)))) /\
  (forall bundleRD : RemoteData Bundle,
     In bundleRD (bundleWrappers item bundleName) ->
     hasValue (payload bundleRD) = false ->
     In (asAny OfBundle bundleRD)
        (emitted (findAllByItemAndBundleName item bundleName options linksToFollow))).
Proof.
  rewrite findAllByItemAndBundleName_eq. split; [| split; [| split]].
  - unfold collect, findAllByItemAndBundleName_spec, bundleWrappers.
    rewrite listInner_requests, listInner_delivered. reflexivity.
  - intros bundle. reflexivity.
  - intros earlier later t bundleRD bundle bitstreamRD Hsplit Hp. split.
    + apply (list_requests _ _ _ _ bundleRD bundle); [| exact Hp].
      exact (split_wrappers _ _ _ _ _ _ Hsplit).
    + intros Harr.
      exact (list_emits _ _ _ _ earlier later t bundleRD bundle bitstreamRD
               Hsplit Hp Harr).
  - intros bundleRD Hb Habs. exact (list_hands_on _ _ _ _ bundleRD Hb Habs).
Qed.

(** C7. The wrappers the service constructs itself satisfy the invariant
    of the wrapper: one with [hasSucceeded = true] has no error and one
    with [hasSucceeded = false] has one.  Every wrapper emitted by
    [getThumbnailFor] and [getMatchingThumbnail] is either a wrapper of a
    collaborator handed on, or one the service constructs. *)
Theorem constructed_wrappers_invariant :
  (forall w : RemoteData Any, constructedByService w -> wrapperInvariant w) /\
  (forall (item : Item) (bitstreamInOriginal : Bitstream) (w : RemoteData Any),
     In w (emitted (getThumbnailFor item)) \/
     In w (emitted (getMatchingThumbnail item bitstreamInOriginal)) ->
     passedOn item w \/ (constructedByService w /\ wrapperInvariant w)).
Proof.
  split; [exact constructed_invariant |].
  intros item original w [Hw | Hw].
  - rewrite getThumbnailFor_eq in Hw. apply thumbnail_emitted_inv in Hw.
    destruct Hw as [[bundleRD [Hb [_ Hw]]] | [bundleRD [bundle [rd [Hb [Hp [Hl Hw]]]]]]].
    + left. left. eauto.
    + destruct (firstOfPage_cases rd) as [[_ Heq] | [[pl [_ [_ Heq]]] | [p Heq]]];
        rewrite Heq in Hw.
      * left. right. eauto.
      * left. right. eauto.
      * right. assert (Hc : constructedByService w) by (left; eauto).
        split; [exact Hc | exact (constructed_invariant w Hc)].
  - rewrite getMatchingThumbnail_eq in Hw. apply thumbnail_emitted_inv in Hw.
    destruct Hw as [[bundleRD [Hb [_ Hw]]] | [bundleRD [bundle [rd [Hb [Hp [Hl Hw]]]]]]].
    + left. left. eauto.
    + destruct (matchInPage_cases original rd) as [Heq | Hc].
      * rewrite Heq in Hw. left. right. eauto.
      * rewrite <- Hw in Hc. right.
        split; [exact Hc | exact (constructed_invariant w Hc)].
Qed.

(** C2, as the code has it.  [getThumbnailFor] synthesises no 404.  When
    the payload of the bundle wrapper is empty it emits that wrapper as
    it is; when a page without first element arrives while its listing is
    the current one it emits a succeeded wrapper with neither error nor
    payload; and every wrapper it emits that is not a wrapper of a
    collaborator handed on has [hasSucceeded = true] and no error. *)
Theorem getThumbnailFor_absent_thumbnail (item : Item) :
  (forall bundleRD : RemoteData Bundle,
     In bundleRD (bundleWrappers item "THUMBNAIL") ->
     isNotEmpty emptyBundle (payload bundleRD) = false ->
     In (asAny OfBundle bundleRD) (emitted (getThumbnailFor item))) /\
  (forall (earlier later : list (nat * RemoteData Bundle)) (t : nat)
          (bundleRD : RemoteData Bundle) (bundle : Bundle)
          (bitstreamRD : RemoteData (PaginatedList Bitstream))
          (paginated : PaginatedList Bitstream) (elements : list Bitstream),
     bundleEvents item "THUMBNAIL" = (earlier ++ (t, bundleRD) :: later)%list ->
     payload bundleRD = value bundle ->
     isNotEmpty emptyBundle (payload bundleRD) = true ->
     arrivesWhileCurrent t later
       (listEvents (links_bitstreams_href bundle)
          (value (elementsPerPage_only 1)) [])
       bitstreamRD ->
     payload bitstreamRD = value paginated ->
     page paginated = value elements ->
     index elements 0 = undefined ->
     In (new_RemoteData false false true undefined undefined)
        (emitted (getThumbnailFor item))) /\
  (forall w : RemoteData Any,
     In w (emitted (getThumbnailFor item)) ->
     passedOn item w \/ (hasSucceeded w = true /\ error w = undefined)).
Proof.
  rewrite getThumbnailFor_eq. split; [| split].
  - intros bundleRD Hb He. apply thumbnail_hands_on; assumption.
  - intros earlier later t bundleRD bundle bitstreamRD paginated elements
      Hb Hp Hne Hl Hpl Hpg Hidx.
    replace (new_RemoteData false false true undefined undefined)
      with (firstOfPage bitstreamRD).
    + apply (thumbnail_emits _ _ _ earlier later t bundleRD bundle); assumption.
    + unfold firstOfPage. rewrite Hpl, Hpg, Hidx. reflexivity.
  - intros w Hw. apply thumbnail_emitted_inv in Hw.
    destruct Hw as [[bundleRD [Hb [_ Hw]]] | [bundleRD [bundle [rd [Hb [Hp [Hl Hw]]]]]]].
    + left. left. eauto.
    + destruct (firstOfPage_cases rd) as [[_ Heq] | [[pl [_ [_ Heq]]] | [p Heq]]];
        rewrite Heq in Hw.
      * left. right. eauto.
      * left. right. eauto.
      * right. subst w. split; reflexivity.
Qed.

(** C8, as the code has it.  [getThumbnailFor], [getMatchingThumbnail]
    and [findAllByItemAndBundleName] never end their stream with an
    error, whatever the collaborators deliver, and [findAllByBundle]
    given a bundle does not throw; called with [undefined] or [null] in
    place of the bundle it throws a [TypeError].  A bundle wrapper whose
    payload is absent, a failed one in particular, is emitted as it is,
    and so is a wrapper of the listing without payload that arrives while
    the listing is the current one; [findAllByItemAndBundleName] emits
    every wrapper of a listing that arrives while it is the current one
    as it is. *)
Theorem operations_do_not_throw :
  (forall item, errored (getThumbnailFor item) = None) /\
  (forall item bitstreamInOriginal,
     errored (getMatchingThumbnail item bitstreamInOriginal) = None) /\
  (forall (bundle : Bundle) options linksToFollow,
     findAllByBundle (value bundle) options linksToFollow =
       Ok (findAllByHref (links_bitstreams_href bundle) options linksToFollow) /\
     errored (findAllByHref (links_bitstreams_href bundle) options linksToFollow) = None) /\
  (forall options linksToFollow,
     findAllByBundle undefined options linksToFollow = Throw TypeError /\
     findAllByBundle null options linksToFollow = Throw TypeError) /\
  (forall item bundleName options linksToFollow,
     errored (findAllByItemAndBundleName item bundleName options linksToFollow) = None) /\
  (forall item bitstreamInOriginal (bundleRD : RemoteData Bundle),
     In bundleRD (bundleWrappers item "THUMBNAIL") ->
     hasValue (payload bundleRD) = false ->
     In (asAny OfBundle bundleRD) (emitted (getThumbnailFor item)) /\
     In (asAny OfBundle bundleRD)
        (emitted (getMatchingThumbnail item bitstreamInOriginal))) /\
  (forall item bitstreamInOriginal
          (earlier later : list (nat * RemoteData Bundle)) (t : nat)
          (bundleRD : RemoteData Bundle) (bundle : Bundle)
          (bitstreamRD : RemoteData (PaginatedList Bitstream)),
     bundleEvents item "THUMBNAIL" = (earlier ++ (t, bundleRD) :: later)%list ->
     payload bundleRD = value bundle ->
     isNotEmpty emptyBundle (payload bundleRD) = true ->
     hasValue (payload bitstreamRD) = false ->
     (arrivesWhileCurrent t later
        (listEvents (links_bitstreams_href bundle)
           (value (elementsPerPage_only 1)) [])
        bitstreamRD ->
      In (asAny OfBitstreams bitstreamRD) (emitted (getThumbnailFor item))) /\
     (arrivesWhileCurrent t later
        (listEvents (links_bitstreams_href bundle)
           (value (elementsPerPage_only MAX_SAFE_INTEGER)) [])
        bitstreamRD ->
      In (asAny OfBitstreams bitstreamRD)
         (emitted (getMatchingThumbnail item bitstreamInOriginal)))) /\
  (forall item bundleName options linksToFollow (bundleRD : RemoteData Bundle),
     In bundleRD (bundleWrappers item bundleName) ->
     hasValue (payload bundleRD) = false ->
     In (asAny OfBundle bundleRD)
        (emitted (findAllByItemAndBundleName item bundleName options linksToFollow))) /\
  (forall item bundleName options linksToFollow
          (earlier later : list (nat * RemoteData Bundle)) (t : nat)
          (bundleRD : RemoteData Bundle) (bundle : Bundle)
          (bitstreamRD : RemoteData (PaginatedList Bitstream)),
     bundleEvents item bundleName = (earlier ++ (t, bundleRD) :: later)%list ->
     payload bundleRD = value bundle ->
     arrivesWhileCurrent t later
       (listEvents (links_bitstreams_href bundle) options linksToFollow)
       bitstreamRD ->
     In (asAny OfBitstreams bitstreamRD)
        (emitted (findAllByItemAndBundleName item bundleName options linksToFollow))).
Proof.
  repeat apply conj.
  - intros item. rewrite getThumbnailFor_eq. reflexivity.
  - intros item original. rewrite getMatchingThumbnail_eq. reflexivity.
  - intros bundle options links. split; reflexivity.
  - intros options links. split; reflexivity.
  - intros item bundleName options links.
    rewrite findAllByItemAndBundleName_eq. reflexivity.
  - intros item original bundleRD Hb Habs.
    rewrite getThumbnailFor_eq, getMatchingThumbnail_eq.
    split; apply thumbnail_hands_on; try exact Hb;
      apply absent_is_empty; exact Habs.
  - intros item original earlier later t bundleRD bundle bitstreamRD Hb Hp Hne Habs.
    rewrite getThumbnailFor_eq, getMatchingThumbnail_eq. split; intros Hl.
    + rewrite <- (firstOfPage_absent bitstreamRD Habs).
      apply (thumbnail_emits _ _ _ earlier later t bundleRD bundle); assumption.
    + rewrite <- (matchInPage_absent original bitstreamRD Habs).
      apply (thumbnail_emits _ _ _ earlier later t bundleRD bundle); assumption.
  - intros item bundleName options links bundleRD Hb Habs.
    rewrite findAllByItemAndBundleName_eq.
    exact (list_hands_on _ _ _ _ bundleRD Hb Habs).
  - intros item bundleName options links earlier later t bundleRD bundle
      bitstreamRD Hsplit Hp Harr.
    rewrite findAllByItemAndBundleName_eq.
    exact (list_emits _ _ _ _ earlier later t bundleRD bundle bitstreamRD
             Hsplit Hp Harr).
Qed.

(** C10. Every listing [getMatchingThumbnail] requests is requested with
    [elementsPerPage = Number.MAX_SAFE_INTEGER], every listing
    [getThumbnailFor] requests with [elementsPerPage = 1], and each of
    them requests one for a bundle wrapper with a non-empty payload.  The
    search of [getMatchingThumbnail] runs over the whole page: a match
    anywhere in a page that arrives while its listing is the current one
    gives a succeeded wrapper with a matching bitstream. *)
Theorem listing_page_sizes (item : Item) (bitstreamInOriginal : Bitstream) :
  (forall r, In r (requests (getMatchingThumbnail item bitstreamInOriginal)) ->
     r = FindByItemAndName item "THUMBNAIL" \/
     exists href,
       r = FindAllByHref href (value (elementsPerPage_only MAX_SAFE_INTEGER)) []) /\
  (forall r, In r (requests (getThumbnailFor item)) ->
     r = FindByItemAndName item "THUMBNAIL" \/
     exists href, r = FindAllByHref href (value (elementsPerPage_only 1)) []) /\
  (forall (bundleRD : RemoteData Bundle) (bundle : Bundle),
     In bundleRD (bundleWrappers item "THUMBNAIL") ->
     payload bundleRD = value bundle ->
     isNotEmpty emptyBundle (payload bundleRD) = true ->
     In (FindAllByHref (links_bitstreams_href bundle)
           (value (elementsPerPage_only MAX_SAFE_INTEGER)) [])
        (requests (getMatchingThumbnail item bitstreamInOriginal)) /\
     In (FindAllByHref (links_bitstreams_href bundle)
           (value (elementsPerPage_only 1)) [])
        (requests (getThumbnailFor item))) /\
  elementsPerPage (elementsPerPage_only MAX_SAFE_INTEGER) = Some 9007199254740991%Z /\
  elementsPerPage (elementsPerPage_only 1) = Some 1%Z /\
  (forall (earlier later : list (nat * RemoteData Bundle)) (t : nat)
          (bundleRD : RemoteData Bundle) (bundle : Bundle)
          (bitstreamRD : RemoteData (PaginatedList Bitstream))
          (paginated : PaginatedList Bitstream) (elements : list Bitstream)
          (candidate : Bitstream),
     bundleEvents item "THUMBNAIL" = (earlier ++ (t, bundleRD) :: later)%list ->
     payload bundleRD = value bundle ->
     isNotEmpty emptyBundle (payload bundleRD) = true ->
     arrivesWhileCurrent t later
       (listEvents (links_bitstreams_href bundle)
          (value (elementsPerPage_only MAX_SAFE_INTEGER)) [])
       bitstreamRD ->
     payload bitstreamRD = value paginated ->
     page paginated = value elements ->
     In candidate elements ->
     startsWith (name candidate) (name bitstreamInOriginal) = true ->
     exists found,
       In found elements /\
       startsWith (name found) (name bitstreamInOriginal) = true /\
       In (new_RemoteData false false true undefined (value (OfBitstream found)))
          (emitted (getMatchingThumbnail item bitstreamInOriginal))).
Proof.
  rewrite getMatchingThumbnail_eq, getThumbnailFor_eq. repeat apply conj.
  - intros r Hr. exact (thumbnail_requests_inv _ _ _ _ Hr).
  - intros r Hr. exact (thumbnail_requests_inv _ _ _ _ Hr).
  - intros bundleRD bundle Hb Hp Hne.
    split; apply (thumbnail_requests _ _ _ bundleRD bundle); assumption.
  - reflexivity.
  - reflexivity.
  - intros earlier later t bundleRD bundle bitstreamRD paginated elements candidate
      Hb Hp Hne Hl Hpl Hpg Hin Hmatch.
    destruct (List.find (fun thumbnail =>
                startsWith (name thumbnail) (name bitstreamInOriginal)) elements)
      as [found |] eqn:Hfind.
    + destruct (List.find_some _ _ Hfind) as [Hfin Hfm].
      exists found. split; [exact Hfin | split; [exact Hfm |]].
      replace (new_RemoteData false false true undefined (value (OfBitstream found)))
        with (matchInPage bitstreamInOriginal bitstreamRD).
      * apply (thumbnail_emits _ _ _ earlier later t bundleRD bundle); assumption.
      * unfold matchInPage. rewrite Hpl, Hpg, Hfind. reflexivity.
    + pose proof (List.find_none _ _ Hfind candidate Hin) as Hno.
      simpl in Hno. rewrite Hmatch in Hno. discriminate Hno.
Qed.

(** ** Further properties of the operations *)

Lemma find_split (A : Type) (p : A -> bool) (l : list A) (x : A) :
  List.find p l = Some x ->
  exists before after,
    l = (before ++ x :: after)%list /\
    (forall y, In y before -> p y = false) /\
    p x = true.
Proof.
  induction l as [| y l IH]; simpl; intros Hf.
  - discriminate Hf.
  - destruct (p y) eqn:Hy.
    + injection Hf as Hf. subst y. exists [], l. repeat split; auto.
      intros z [].
    + destruct (IH Hf) as [before [after [Hl [Hb Hx]]]].
      exists (y :: before), after. subst l. repeat split; auto.
      intros z [Hz | Hz]; [subst z; exact Hy | exact (Hb z Hz)].
Qed.

Lemma flat_map_pointwise (A B : Type) (f g : A -> list B) (l : list A) :
  (forall a, In a l -> f a = g a) -> flat_map f l = flat_map g l.
Proof.
  induction l as [| a l IH]; simpl; intros H.
  - reflexivity.
  - rewrite (H a (or_introl eq_refl)), IH; [reflexivity |].
    intros b Hb. apply H. right. exact Hb.
Qed.

Lemma prefix_empty (s : string) : String.prefix "" s = true.
Proof.
  destruct s; reflexivity.
Qed.

Lemma prefix_length (t s : string) :
  String.prefix t s = true -> String.length t <= String.length s.
Proof.
  revert s. induction t as [| c t IH]; intros s H; simpl.
  - apply Nat.le_0_l.
  - destruct s as [| d s]; simpl in H; [discriminate H |].
    destruct (Ascii.ascii_dec c d); [| discriminate H].
    simpl. apply le_n_S. apply IH. exact H.
Qed.

(** As [thumbnail_emitted_inv], keeping what the guard has established. *)
Lemma thumbnail_emitted_cases (options : maybe FindListOptions)
    (perWrapper : RemoteData (PaginatedList Bitstream) -> RemoteData Any)
    (item : Item) (w : RemoteData Any) :
  In w (emitted (collect (thumbnailInner options perWrapper) item "THUMBNAIL")) ->
  (exists bundleRD,
     In bundleRD (bundleWrappers item "THUMBNAIL") /\
     isNotEmpty emptyBundle (payload bundleRD) = false /\
     w = asAny OfBundle bundleRD) \/
  (exists bundleRD bundle bitstreamRD,
     In bundleRD (bundleWrappers item "THUMBNAIL") /\
     payload bundleRD = value bundle /\
     emptyBundle bundle = false /\
     In bitstreamRD (listWrappers (links_bitstreams_href bundle) options []) /\
     w = perWrapper bitstreamRD).
Proof.
  intros Hw. apply collect_emitted_inv in Hw. destruct Hw as [bundleRD [Hb Hw]].
  destruct (payload bundleRD) as [| | bundle] eqn:Hp.
  - left. exists bundleRD. rewrite Hp.
    unfold thumbnailInner in Hw. rewrite Hp in Hw. simpl in Hw.
    destruct Hw as [Hw | []]. auto.
  - left. exists bundleRD. rewrite Hp.
    unfold thumbnailInner in Hw. rewrite Hp in Hw. simpl in Hw.
    destruct Hw as [Hw | []]. auto.
  - destruct (emptyBundle bundle) eqn:He.
    + left. exists bundleRD. rewrite Hp. simpl. rewrite He.
      unfold thumbnailInner in Hw. rewrite Hp, He in Hw. simpl in Hw.
      destruct Hw as [Hw | []]. auto.
    + right.
      assert (Hne : isNotEmpty emptyBundle (payload bundleRD) = true)
        by (rewrite Hp; simpl; rewrite He; reflexivity).
      rewrite (thumbnailInner_notEmpty _ _ _ bundle Hp Hne) in Hw.
      rewrite emitted_mapped in Hw.
      apply in_map_iff in Hw. destruct Hw as [bitstreamRD [Heq Hl]].
      exists bundleRD, bundle, bitstreamRD. auto.
Qed.

(** X1. Every wrapper [getMatchingThumbnail] emits has one of four
    origins: a bundle wrapper with an empty payload, handed on; a wrapper
    of the listing without payload or without page, handed on; a
    succeeded wrapper whose payload is the first bitstream of a delivered
    page whose name starts with the name of the original; or the 404
    wrapper, for a delivered page on which no name starts with it.  It
    never delivers a bitstream whose name does not match. *)
Theorem getMatchingThumbnail_origin (item : Item) (bitstreamInOriginal : Bitstream)
    (w : RemoteData Any) :
  In w (emitted (getMatchingThumbnail item bitstreamInOriginal)) ->
  (exists bundleRD,
     In bundleRD (bundleWrappers item "THUMBNAIL") /\
     isNotEmpty emptyBundle (payload bundleRD) = false /\
     w = asAny OfBundle bundleRD) \/
  (exists bundleRD bundle bitstreamRD,
     In bundleRD (bundleWrappers item "THUMBNAIL") /\
     payload bundleRD = value bundle /\
     emptyBundle bundle = false /\
     In bitstreamRD
        (listWrappers (links_bitstreams_href bundle)
           (value (elementsPerPage_only MAX_SAFE_INTEGER)) []) /\
     ((hasValue (payload bitstreamRD) = false /\
       w = asAny OfBitstreams bitstreamRD) \/
      (exists paginated,
         payload bitstreamRD = value paginated /\
         hasValue (page paginated) = false /\
         w = asAny OfBitstreams bitstreamRD) \/
      (exists paginated before thumbnail after,
         payload bitstreamRD = value paginated /\
         page paginated = value (before ++ thumbnail :: after)%list /\
         (forall earlier, In earlier before ->
            startsWith (name earlier) (name bitstreamInOriginal) = false) /\
         startsWith (name thumbnail) (name bitstreamInOriginal) = true /\
         w = new_RemoteData false false true undefined
               (value (OfBitstream thumbnail))) \/
      (exists paginated elements,
         payload bitstreamRD = value paginated /\
         page paginated = value elements /\
         (forall thumbnail, In thumbnail elements ->
            startsWith (name thumbnail) (name bitstreamInOriginal) = false) /\
         w = new_RemoteData false false false
               (value (new_RemoteDataError 404 "404" "No matching thumbnail found"))
               undefined))).
Proof.
  intros Hw. rewrite getMatchingThumbnail_eq in Hw.
  apply thumbnail_emitted_cases in Hw.
  destruct Hw as [Hw | [bundleRD [bundle [rd [Hb [Hp [He [Hl Hw]]]]]]]]; [left; exact Hw |].
  right. exists bundleRD, bundle, rd. repeat (split; [assumption |]).
  unfold matchInPage in Hw.
  destruct (payload rd) as [| | paginated] eqn:Hpl;
    [left; split; [reflexivity | exact Hw]
    | left; split; [reflexivity | exact Hw] |].
  right. destruct (page paginated) as [| | elements] eqn:Hpg.
  - left. exists paginated. rewrite Hpg. repeat split. exact Hw.
  - left. exists paginated. rewrite Hpg. repeat split. exact Hw.
  - right.
    destruct (List.find
                (fun thumbnail =>
                   startsWith (name thumbnail) (name bitstreamInOriginal))
                elements) as [thumbnail |] eqn:Hfind.
    + left. destruct (find_split _ _ _ _ Hfind) as [before [after [Hel [Hbefore Hm]]]].
      exists paginated, before, thumbnail, after. subst elements.
      repeat split; assumption.
    + right. exists paginated, elements. repeat split; try assumption.
      intros thumbnail Hin. exact (List.find_none _ _ Hfind thumbnail Hin).
Qed.

(** X2. Every wrapper [getThumbnailFor] emits has one of three origins:
    a bundle wrapper with an empty payload, handed on; a wrapper of the
    listing without payload or without page, handed on; or a succeeded
    wrapper whose payload is element 0 of a page delivered by a listing
    requested with [elementsPerPage = 1].  No other element of a page is
    ever delivered. *)
Theorem getThumbnailFor_origin (item : Item) (w : RemoteData Any) :
  In w (emitted (getThumbnailFor item)) ->
  (exists bundleRD,
     In bundleRD (bundleWrappers item "THUMBNAIL") /\
     isNotEmpty emptyBundle (payload bundleRD) = false /\
     w = asAny OfBundle bundleRD) \/
  (exists bundleRD bundle bitstreamRD,
     In bundleRD (bundleWrappers item "THUMBNAIL") /\
     payload bundleRD = value bundle /\
     emptyBundle bundle = false /\
     In bitstreamRD
        (listWrappers (links_bitstreams_href bundle)
           (value (elementsPerPage_only 1)) []) /\
     ((hasValue (payload bitstreamRD) = false /\
       w = asAny OfBitstreams bitstreamRD) \/
      (exists paginated,
         payload bitstreamRD = value paginated /\
         hasValue (page paginated) = false /\
         w = asAny OfBitstreams bitstreamRD) \/
      (exists paginated elements,
         payload bitstreamRD = value paginated /\
         page paginated = value elements /\
         w = new_RemoteData false false true undefined
               (maybe_map OfBitstream (index elements 0))))).
Proof.
  intros Hw. rewrite getThumbnailFor_eq in Hw.
  apply thumbnail_emitted_cases in Hw.
  destruct Hw as [Hw | [bundleRD [bundle [rd [Hb [Hp [He [Hl Hw]]]]]]]]; [left; exact Hw |].
  right. exists bundleRD, bundle, rd. repeat (split; [assumption |]).
  unfold firstOfPage in Hw.
  destruct (payload rd) as [| | paginated] eqn:Hpl;
    [left; split; [reflexivity | exact Hw]
    | left; split; [reflexivity | exact Hw] |].
  right. destruct (page paginated) as [| | elements] eqn:Hpg.
  - left. exists paginated. rewrite Hpg. repeat split. exact Hw.
  - left. exists paginated. rewrite Hpg. repeat split. exact Hw.
  - right. exists paginated, elements.
    split; [reflexivity | split; [exact Hpg | exact Hw]].
Qed.

Lemma delivered_last (A B : Type) (inner : A -> Observable Request B)
    (earlier : list (nat * A)) (t : nat) (a : A) :
  exists front,
    List.map snd (delivered inner (earlier ++ [(t, a)])%list)
    = (front ++ emitted (inner a))%list.
Proof.
  induction earlier as [| [t' a'] earlier IH]; simpl.
  - exists []. rewrite app_nil_r, whileCurrent_last. unfold Rx.shift, emitted.
    rewrite map_map. reflexivity.
  - destruct IH as [front Hfront]. rewrite map_app, Hfront.
    eexists. rewrite app_assoc. reflexivity.
Qed.

(** X3. [findAllByItemAndBundleName] asks the bundle service once and
    then, in the order of the bundle wrappers, asks for one listing per
    wrapper whose payload is present, with the options and links of the
    caller unchanged, and for none when the payload is absent.  The
    listing requested for the last bundle wrapper is never cut off: the
    stream ends with all its wrappers, in order and unchanged.  Nothing
    is emitted but bundle wrappers without payload and wrappers of the
    listings requested, each unchanged. *)
Theorem findAllByItemAndBundleName_stream (item : Item) (bundleName : string)
    (options : maybe FindListOptions) (linksToFollow : list FollowLinkConfig) :
  requests (findAllByItemAndBundleName item bundleName options linksToFollow) =
    FindByItemAndName item bundleName
    :: flat_map
         (fun bundleRD : RemoteData Bundle =>
            match payload bundleRD with
            | value bundle =>
                [FindAllByHref (links_bitstreams_href bundle) options linksToFollow]
            | undefined | null => []
            end)
         (bundleWrappers item bundleName) /\
  (forall (earlier : list (nat * RemoteData Bundle)) (t : nat)
          (bundleRD : RemoteData Bundle) (bundle : Bundle),
     bundleEvents item bundleName = (earlier ++ [(t, bundleRD)])%list ->
     payload bundleRD = value bundle ->
     exists front,
       emitted (findAllByItemAndBundleName item bundleName options linksToFollow)
       = (front ++ List.map (asAny OfBitstreams)
                     (listWrappers (links_bitstreams_href bundle)
                        options linksToFollow))%list) /\
  (forall w : RemoteData Any,
     In w (emitted (findAllByItemAndBundleName item bundleName options linksToFollow)) ->
     (exists bundleRD,
        In bundleRD (bundleWrappers item bundleName) /\
        hasValue (payload bundleRD) = false /\
        w = asAny OfBundle bundleRD) \/
     (exists bundleRD bundle bitstreamRD,
        In bundleRD (bundleWrappers item bundleName) /\
        payload bundleRD = value bundle /\
        In bitstreamRD
           (listWrappers (links_bitstreams_href bundle) options linksToFollow) /\
        w = asAny OfBitstreams bitstreamRD)).
Proof.
  rewrite findAllByItemAndBundleName_eq. split; [| split].
  - unfold collect; simpl. f_equal. apply flat_map_pointwise. intros rd _.
    unfold listInner. destruct (payload rd); reflexivity.
  - intros earlier t bundleRD bundle Hsplit Hp.
    destruct (delivered_last _ _ (listInner options linksToFollow) earlier t bundleRD)
      as [front Hfront].
    exists front. unfold emitted at 1, collect; simpl. rewrite Hsplit, Hfront.
    f_equal. unfold listInner. rewrite Hp. unfold anyList, findAllByHref; simpl.
    apply emitted_mapped.
  - intros w Hw. apply collect_emitted_inv in Hw. destruct Hw as [bundleRD [Hb Hw]].
    unfold listInner in Hw. destruct (payload bundleRD) as [| | bundle] eqn:Hp.
    + left. exists bundleRD. rewrite Hp. simpl in Hw. destruct Hw as [Hw | []]. auto.
    + left. exists bundleRD. rewrite Hp. simpl in Hw. destruct Hw as [Hw | []]. auto.
    + right. unfold anyList, findAllByHref in Hw; simpl in Hw.
      rewrite emitted_mapped in Hw. apply in_map_iff in Hw.
      destruct Hw as [bitstreamRD [Heq Hl]].
      exists bundleRD, bundle, bitstreamRD. auto.
Qed.

(** X4. The two thumbnail lookups ask the bundle service once for
    "THUMBNAIL" and then, in the order of the bundle wrappers, ask for one
    listing per wrapper whose payload is not empty and for none otherwise;
    they differ in the page size alone. *)
Theorem thumbnail_requests_stream (item : Item) (bitstreamInOriginal : Bitstream) :
  let listings (options : maybe FindListOptions) :=
    flat_map
      (fun bundleRD : RemoteData Bundle =>
         match payload bundleRD with
         | value bundle =>
             if emptyBundle bundle then []
             else [FindAllByHref (links_bitstreams_href bundle) options []]
         | undefined | null => []
         end)
      (bundleWrappers item "THUMBNAIL") in
  requests (getThumbnailFor item) =
    FindByItemAndName item "THUMBNAIL"
    :: listings (value (elementsPerPage_only 1)) /\
  requests (getMatchingThumbnail item bitstreamInOriginal) =
    FindByItemAndName item "THUMBNAIL"
    :: listings (value (elementsPerPage_only MAX_SAFE_INTEGER)).
Proof.
  intros listings. subst listings.
  rewrite getThumbnailFor_eq, getMatchingThumbnail_eq. unfold collect; simpl.
  split; f_equal; apply flat_map_pointwise; intros rd _; unfold thumbnailInner;
    destruct (payload rd) as [| | bundle]; try reflexivity;
    destruct (emptyBundle bundle); reflexivity.
Qed.

Lemma thumbnailInner_all_empty (options : maybe FindListOptions)
    (perWrapper : RemoteData (PaginatedList Bitstream) -> RemoteData Any)
    (resolved : list (nat * RemoteData Bundle)) :
  (forall bundleRD, In bundleRD (List.map snd resolved) ->
     isNotEmpty emptyBundle (payload bundleRD) = false) ->
  flat_map (fun rd => requests (thumbnailInner options perWrapper rd))
    (List.map snd resolved) = [] /\
  delivered (thumbnailInner options perWrapper) resolved
  = List.map (fun e => (fst e, asAny OfBundle (snd e))) resolved.
Proof.
  induction resolved as [| [t rd] l IH]; simpl; intros Hall.
  - split; reflexivity.
  - rewrite thumbnailInner_empty by (apply Hall; left; reflexivity). simpl.
    destruct IH as [Hreq Hem]; [intros rd' Hrd'; apply Hall; right; exact Hrd' |].
    rewrite Hreq, Hem, current_at_once. split; reflexivity.
Qed.

(** X5. When every wrapper of the THUMBNAIL bundle lookup has an empty
    payload, also when there is none, both thumbnail lookups emit exactly
    those wrappers, in order, unchanged and as they arrive, and ask for
    no listing. *)
Theorem thumbnail_lookups_without_bundle (item : Item) (bitstreamInOriginal : Bitstream) :
  (forall bundleRD, In bundleRD (bundleWrappers item "THUMBNAIL") ->
     isNotEmpty emptyBundle (payload bundleRD) = false) ->
  getThumbnailFor item =
    {| requests := [FindByItemAndName item "THUMBNAIL"];
       events := List.map (fun e => (fst e, asAny OfBundle (snd e)))
                   (bundleEvents item "THUMBNAIL");
       errored := None |} /\
  emitted (getThumbnailFor item)
  = List.map (asAny OfBundle) (bundleWrappers item "THUMBNAIL") /\
  getMatchingThumbnail item bitstreamInOriginal = getThumbnailFor item.
Proof.
  intros Hall.
  assert (Hinner : forall options perWrapper,
            collect (thumbnailInner options perWrapper) item "THUMBNAIL" =
            {| requests := [FindByItemAndName item "THUMBNAIL"];
               events := List.map (fun e => (fst e, asAny OfBundle (snd e)))
                           (bundleEvents item "THUMBNAIL");
               errored := None |}).
  { intros options perWrapper. unfold collect.
    destruct (thumbnailInner_all_empty options perWrapper _ Hall) as [Hreq Hem].
    unfold bundleWrappers. rewrite Hreq, Hem. reflexivity. }
  rewrite getThumbnailFor_eq, getMatchingThumbnail_eq, !Hinner.
  split; [reflexivity | split; [| reflexivity]].
  unfold bundleWrappers. apply emitted_mapped.
Qed.

(** X6. A wrapper of the listing whose payload is present but has no
    [page], arriving while the listing is the current one, is handed on
    unchanged by both thumbnail lookups. *)
Theorem thumbnail_lookups_without_page (item : Item) (bitstreamInOriginal : Bitstream)
    (earlier later : list (nat * RemoteData Bundle)) (t : nat)
    (bundleRD : RemoteData Bundle) (bundle : Bundle)
    (bitstreamRD : RemoteData (PaginatedList Bitstream))
    (paginated : PaginatedList Bitstream) :
  bundleEvents item "THUMBNAIL" = (earlier ++ (t, bundleRD) :: later)%list ->
  payload bundleRD = value bundle ->
  isNotEmpty emptyBundle (payload bundleRD) = true ->
  payload bitstreamRD = value paginated ->
  hasValue (page paginated) = false ->
  (arrivesWhileCurrent t later
     (listEvents (links_bitstreams_href bundle) (value (elementsPerPage_only 1)) [])
     bitstreamRD ->
   In (asAny OfBitstreams bitstreamRD) (emitted (getThumbnailFor item))) /\
  (arrivesWhileCurrent t later
     (listEvents (links_bitstreams_href bundle)
        (value (elementsPerPage_only MAX_SAFE_INTEGER)) [])
     bitstreamRD ->
   In (asAny OfBitstreams bitstreamRD)
      (emitted (getMatchingThumbnail item bitstreamInOriginal))).
Proof.
  intros Hb Hp Hne Hpl Hpg.
  assert (H1 : firstOfPage bitstreamRD = asAny OfBitstreams bitstreamRD).
  { unfold firstOfPage. rewrite Hpl.
    destruct (page paginated); [reflexivity | reflexivity | discriminate Hpg]. }
  assert (H2 : matchInPage bitstreamInOriginal bitstreamRD
               = asAny OfBitstreams bitstreamRD).
  { unfold matchInPage. rewrite Hpl.
    destruct (page paginated); [reflexivity | reflexivity | discriminate Hpg]. }
  rewrite getThumbnailFor_eq, getMatchingThumbnail_eq. split.
  - intros Hl. rewrite <- H1.
    apply (thumbnail_emits _ _ _ earlier later t bundleRD bundle); assumption.
  - intros Hl. rewrite <- H2.
    apply (thumbnail_emits _ _ _ earlier later t bundleRD bundle); assumption.
Qed.

Lemma whileCurrent_Forall2 (A B : Type) (R : A -> B -> Prop)
    (subscribed : nat) (next : option nat)
    (left : list (nat * A)) (right : list (nat * B)) :
  Forall2 (fun e1 e2 => fst e1 = fst e2 /\ R (snd e1) (snd e2)) left right ->
  Forall2 (fun e1 e2 => fst e1 = fst e2 /\ R (snd e1) (snd e2))
    (Rx.whileCurrent subscribed next left) (Rx.whileCurrent subscribed next right).
Proof.
  intros H. induction H as [| [d1 a] [d2 b] l r [Ht Hr] _ IH]; simpl.
  - constructor.
  - simpl in Ht. subst d2. destruct (Rx.current subscribed next d1).
    + constructor; [split; [reflexivity | exact Hr] | exact IH].
    + constructor.
Qed.

Lemma Forall2_values (A B : Type) (R : A -> B -> Prop)
    (left : list (nat * A)) (right : list (nat * B)) :
  Forall2 (fun e1 e2 => fst e1 = fst e2 /\ R (snd e1) (snd e2)) left right ->
  Forall2 R (List.map snd left) (List.map snd right).
Proof.
  intros H. induction H as [| e1 e2 l r [_ Hr] _ IH]; simpl; constructor; assumption.
Qed.

Lemma delivered_Forall2 (A B C : Type) (R : B -> C -> Prop)
    (inner1 : A -> Observable Request B) (inner2 : A -> Observable Request C)
    (arrivals : list (nat * A)) :
  (forall a, In a (List.map snd arrivals) ->
     Forall2 (fun e1 e2 => fst e1 = fst e2 /\ R (snd e1) (snd e2))
       (events (inner1 a)) (events (inner2 a))) ->
  Forall2 R (List.map snd (delivered inner1 arrivals))
            (List.map snd (delivered inner2 arrivals)).
Proof.
  induction arrivals as [| [t a] rest IH]; simpl; intros H.
  - constructor.
  - rewrite !map_app. apply Forall2_app.
    + unfold Rx.shift. rewrite !map_map. simpl.
      apply Forall2_values, whileCurrent_Forall2, H. left. reflexivity.
    + apply IH. intros a' Ha'. apply H. right. exact Ha'.
Qed.

Lemma thumbnailInner_follows_listInner (options : maybe FindListOptions)
    (perWrapper : RemoteData (PaginatedList Bitstream) -> RemoteData Any)
    (bundleRD : RemoteData Bundle) :
  isNotEmpty emptyBundle (payload bundleRD) = hasValue (payload bundleRD) ->
  (forall rd, hasValue (payload rd) = false -> perWrapper rd = asAny OfBitstreams rd) ->
  requests (thumbnailInner options perWrapper bundleRD)
  = requests (listInner options [] bundleRD) /\
  Forall2 (fun e1 e2 : nat * RemoteData Any =>
             fst e1 = fst e2 /\
             (hasValue (payload (snd e1)) = false -> snd e2 = snd e1))
          (events (listInner options [] bundleRD))
          (events (thumbnailInner options perWrapper bundleRD)).
Proof.
  intros Hagree Habs. unfold thumbnailInner, listInner.
  destruct (payload bundleRD) as [| | bundle]; simpl in *.
  - split; [reflexivity |]. constructor; [split; reflexivity | constructor].
  - split; [reflexivity |]. constructor; [split; reflexivity | constructor].
  - destruct (emptyBundle bundle); simpl in Hagree; [discriminate Hagree |]. simpl.
    split; [reflexivity |].
    induction (listEvents (links_bitstreams_href bundle) options []) as [| [d rd] l IH];
      simpl; constructor; [| exact IH].
    split; [reflexivity |]. simpl.
    intros Hrd. apply Habs. destruct (payload rd); simpl in Hrd;
      [reflexivity | reflexivity | discriminate Hrd].
Qed.

Lemma collect_follows (options : maybe FindListOptions)
    (perWrapper : RemoteData (PaginatedList Bitstream) -> RemoteData Any)
    (item : Item) :
  (forall bundleRD, In bundleRD (bundleWrappers item "THUMBNAIL") ->
     isNotEmpty emptyBundle (payload bundleRD) = hasValue (payload bundleRD)) ->
  (forall rd, hasValue (payload rd) = false -> perWrapper rd = asAny OfBitstreams rd) ->
  requests (collect (thumbnailInner options perWrapper) item "THUMBNAIL")
  = requests (collect (listInner options []) item "THUMBNAIL") /\
  Forall2 (fun listed thumbnail : RemoteData Any =>
             hasValue (payload listed) = false -> thumbnail = listed)
          (emitted (collect (listInner options []) item "THUMBNAIL"))
          (emitted (collect (thumbnailInner options perWrapper) item "THUMBNAIL")).
Proof.
  intros Hagree Habs. unfold emitted, collect; simpl. split.
  - f_equal. apply flat_map_pointwise. intros rd Hrd.
    exact (proj1 (thumbnailInner_follows_listInner options perWrapper rd
                    (Hagree rd Hrd) Habs)).
  - apply delivered_Forall2. intros rd Hrd.
    exact (proj2 (thumbnailInner_follows_listInner options perWrapper rd
                    (Hagree rd Hrd) Habs)).
Qed.

(** X7. When no bundle wrapper carries a payload that is present but
    empty, each thumbnail lookup follows [findAllByItemAndBundleName] for
    "THUMBNAIL" with its own page size and no links: it issues the same
    requests in the same order, emits one wrapper for each wrapper that
    operation emits, in the same order, and emits the wrappers without
    payload unchanged. *)
Theorem thumbnail_lookups_follow_listing (item : Item) (bitstreamInOriginal : Bitstream) :
  (forall bundleRD, In bundleRD (bundleWrappers item "THUMBNAIL") ->
     isNotEmpty emptyBundle (payload bundleRD) = hasValue (payload bundleRD)) ->
  requests (getThumbnailFor item)
  = requests (findAllByItemAndBundleName item "THUMBNAIL"
                (value (elementsPerPage_only 1)) []) /\
  Forall2 (fun listed thumbnail : RemoteData Any =>
             hasValue (payload listed) = false -> thumbnail = listed)
          (emitted (findAllByItemAndBundleName item "THUMBNAIL"
                      (value (elementsPerPage_only 1)) []))
          (emitted (getThumbnailFor item)) /\
  requests (getMatchingThumbnail item bitstreamInOriginal)
  = requests (findAllByItemAndBundleName item "THUMBNAIL"
                (value (elementsPerPage_only MAX_SAFE_INTEGER)) []) /\
  Forall2 (fun listed thumbnail : RemoteData Any =>
             hasValue (payload listed) = false -> thumbnail = listed)
          (emitted (findAllByItemAndBundleName item "THUMBNAIL"
                      (value (elementsPerPage_only MAX_SAFE_INTEGER)) []))
          (emitted (getMatchingThumbnail item bitstreamInOriginal)).
Proof.
  intros Hagree.
  rewrite getThumbnailFor_eq, getMatchingThumbnail_eq, !findAllByItemAndBundleName_eq.
  destruct (collect_follows (value (elementsPerPage_only 1)) firstOfPage item
              Hagree firstOfPage_absent) as [Hr1 He1].
  destruct (collect_follows (value (elementsPerPage_only MAX_SAFE_INTEGER))
              (matchInPage bitstreamInOriginal) item
              Hagree (matchInPage_absent bitstreamInOriginal)) as [Hr2 He2].
  repeat split; assumption.
Qed.

(** X8. When the name of the original is the empty string every name
    starts with it: for a page with at least one element that arrives
    while its listing is the current one [getMatchingThumbnail] emits the
    succeeded wrapper of its first element. *)
Theorem getMatchingThumbnail_empty_name (item : Item) (bitstreamInOriginal : Bitstream)
    (earlier later : list (nat * RemoteData Bundle)) (t : nat)
    (bundleRD : RemoteData Bundle) (bundle : Bundle)
    (bitstreamRD : RemoteData (PaginatedList Bitstream))
    (paginated : PaginatedList Bitstream) (first : Bitstream) (others : list Bitstream) :
  name bitstreamInOriginal = "" ->
  bundleEvents item "THUMBNAIL" = (earlier ++ (t, bundleRD) :: later)%list ->
  payload bundleRD = value bundle ->
  isNotEmpty emptyBundle (payload bundleRD) = true ->
  arrivesWhileCurrent t later
    (listEvents (links_bitstreams_href bundle)
       (value (elementsPerPage_only MAX_SAFE_INTEGER)) [])
    bitstreamRD ->
  payload bitstreamRD = value paginated ->
  page paginated = value (first :: others) ->
  In (new_RemoteData false false true undefined (value (OfBitstream first)))
     (emitted (getMatchingThumbnail item bitstreamInOriginal)).
Proof.
  intros Hname Hb Hp Hne Hl Hpl Hpg. rewrite getMatchingThumbnail_eq.
  replace (new_RemoteData false false true undefined (value (OfBitstream first)))
    with (matchInPage bitstreamInOriginal bitstreamRD).
  - apply (thumbnail_emits _ _ _ earlier later t bundleRD bundle); assumption.
  - unfold matchInPage. rewrite Hpl, Hpg. simpl. unfold startsWith.
    rewrite Hname, prefix_empty. reflexivity.
Qed.

(** X9. The test is [thumbnail.name.startsWith(original.name)], not the
    converse: when every name on a page that arrives while its listing is
    the current one is shorter than the name of the original, as a proper
    prefix of it is, nothing matches and [getMatchingThumbnail] emits the
    404 wrapper. *)
Theorem getMatchingThumbnail_shorter_names (item : Item) (bitstreamInOriginal : Bitstream)
    (earlier later : list (nat * RemoteData Bundle)) (t : nat)
    (bundleRD : RemoteData Bundle) (bundle : Bundle)
    (bitstreamRD : RemoteData (PaginatedList Bitstream))
    (paginated : PaginatedList Bitstream) (elements : list Bitstream) :
  bundleEvents item "THUMBNAIL" = (earlier ++ (t, bundleRD) :: later)%list ->
  payload bundleRD = value bundle ->
  isNotEmpty emptyBundle (payload bundleRD) = true ->
  arrivesWhileCurrent t later
    (listEvents (links_bitstreams_href bundle)
       (value (elementsPerPage_only MAX_SAFE_INTEGER)) [])
    bitstreamRD ->
  payload bitstreamRD = value paginated ->
  page paginated = value elements ->
  (forall thumbnail, In thumbnail elements ->
     String.length (name thumbnail) < String.length (name bitstreamInOriginal)) ->
  In (new_RemoteData false false false
        (value (new_RemoteDataError 404 "404" "No matching thumbnail found"))
        undefined)
     (emitted (getMatchingThumbnail item bitstreamInOriginal)).
Proof.
  intros Hb Hp Hne Hl Hpl Hpg Hshort. rewrite getMatchingThumbnail_eq.
  change (new_RemoteData false false false
            (value (new_RemoteDataError 404 "404" "No matching thumbnail found"))
            undefined) with notFound.
  replace notFound with (matchInPage bitstreamInOriginal bitstreamRD).
  - apply (thumbnail_emits _ _ _ earlier later t bundleRD bundle); assumption.
  - unfold matchInPage. rewrite Hpl, Hpg. rewrite find_all_false; [reflexivity |].
    intros thumbnail Hin. unfold startsWith.
    destruct (String.prefix (name bitstreamInOriginal) (name thumbnail)) eqn:Hpre;
      [| reflexivity].
    apply prefix_length in Hpre. specialize (Hshort thumbnail Hin). lia.
Qed.

End BitstreamDataService.

Arguments FindByItemAndName {Item FollowLinkConfig} item bundleName.
Arguments FindAllByHref {Item FollowLinkConfig} href options linksToFollow.
Arguments OfBundle {Bundle Bitstream} bundle.
Arguments OfBitstreams {Bundle Bitstream} paginated.
Arguments OfBitstream {Bundle Bitstream} bitstream.
Arguments asAny {Bundle Bitstream T} inj rd.
Arguments bundleWrappers {Item Bundle} bundleEvents item bundleName.
Arguments listWrappers {Bitstream FollowLinkConfig} listEvents
  href options linksToFollow.
Arguments getThumbnailFor {Item Bundle Bitstream FollowLinkConfig}
  links_bitstreams_href emptyBundle bundleEvents listEvents item.
Arguments getMatchingThumbnail {Item Bundle Bitstream FollowLinkConfig}
  links_bitstreams_href name emptyBundle bundleEvents listEvents
  item bitstreamInOriginal.
Arguments findAllByItemAndBundleName {Item Bundle Bitstream FollowLinkConfig}
  links_bitstreams_href bundleEvents listEvents
  item bundleName options linksToFollow.
Arguments passedOn {Item Bundle Bitstream FollowLinkConfig}
  bundleEvents listEvents item w.
Arguments constructedByService {Bundle Bitstream} w.

(** ** The operations on the sample repositories *)

Abbreviation sample_getThumbnailFor :=
  (getThumbnailFor Sample.bitstreamsHref Sample.neverEmpty
     Sample.bundleEvents Sample.listEvents).

Abbreviation sample_getMatchingThumbnail :=
  (getMatchingThumbnail Sample.bitstreamsHref Sample.name Sample.neverEmpty
     Sample.bundleEvents Sample.listEvents).

Abbreviation sample_findAllByItemAndBundleName :=
  (findAllByItemAndBundleName Sample.bitstreamsHref
     Sample.bundleEvents Sample.listEvents).

Abbreviation edge_getThumbnailFor :=
  (getThumbnailFor Sample.bitstreamsHref Sample.neverEmpty
     Edge.bundleEvents Edge.listEvents).

Abbreviation edge_getMatchingThumbnail :=
  (getMatchingThumbnail Sample.bitstreamsHref Sample.name Sample.neverEmpty
     Edge.bundleEvents Edge.listEvents).

Abbreviation race_getThumbnailFor :=
  (getThumbnailFor Sample.bitstreamsHref Sample.neverEmpty
     Race.bundleEvents Race.listEvents).

Abbreviation patient_getThumbnailFor :=
  (getThumbnailFor Sample.bitstreamsHref Sample.neverEmpty
     Race.patientBundleEvents Race.listEvents).

Abbreviation race_findAllByItemAndBundleName :=
  (findAllByItemAndBundleName Sample.bitstreamsHref
     Race.bundleEvents Race.listEvents).

Abbreviation everything := (value (elementsPerPage_only MAX_SAFE_INTEGER)).
Abbreviation justOne := (value (elementsPerPage_only 1)).

Abbreviation sample_success bitstream :=
  (new_RemoteData false false true undefined
     (value (@OfBitstream Sample.Bundle Sample.Bitstream bitstream))).

Abbreviation thumbnails_1 := (Sample.thumbnailsOf "/bundles/1/bitstreams").
Abbreviation thumbnails_3 := (Sample.thumbnailsOf "/bundles/3/bitstreams").
Abbreviation all_three := [Sample.map_png; Sample.cover_jpg; Sample.cover_png].

Ltac in_list := simpl; repeat (first [left; reflexivity | right]).

(** The wrapper after [before], arriving [delay] after the request. *)
Ltac arrives before delay :=
  exists before, delay, [];
  split; [reflexivity
         | split; [intros e He; simpl in He;
                   repeat (destruct He as [He | He]; [subst e; reflexivity |]);
                   contradiction
                  | reflexivity]].

(** The streams of the thumbnail lookups for item 1. *)
Example getThumbnailFor_item_1 :
  sample_getThumbnailFor 1%nat =
  {| requests := [FindByItemAndName 1%nat "THUMBNAIL";
                  FindAllByHref "/bundles/1/bitstreams" justOne []];
     events := [(0, asAny OfBundle Sample.pending);
                (10, asAny OfBitstreams Sample.pending);
                (11, sample_success Sample.map_png)];
     errored := None |}.
Proof.
  reflexivity.
Qed.

Example getMatchingThumbnail_item_1 :
  emitted (sample_getMatchingThumbnail 1%nat Sample.original_cover) =
  [asAny OfBundle Sample.pending;
   asAny OfBitstreams Sample.pending;
   sample_success Sample.cover_jpg].
Proof.
  reflexivity.
Qed.

(** The listing of item 4 through [findAllByItemAndBundleName]: the
    failed wrapper is handed on with its payload. *)
Example findAllByItemAndBundleName_item_4 :
  emitted (sample_findAllByItemAndBundleName 4%nat "THUMBNAIL" undefined []) =
  [asAny OfBitstreams
     (Sample.failed 500 "Internal Server Error"
        (value (Sample.paged undefined [Sample.cover_jpg])))].
Proof.
  reflexivity.
Qed.

(** When the bundle lookup is heard again before the page of the first
    listing arrives, that listing is dropped: both listings are
    requested, and of the first only the wrapper delivered at once is
    emitted. *)
Example getThumbnailFor_race :
  race_getThumbnailFor 1%nat =
  {| requests := [FindByItemAndName 1%nat "THUMBNAIL";
                  FindAllByHref "/bundles/a/bitstreams" justOne [];
                  FindAllByHref "/bundles/b/bitstreams" justOne []];
     events := [(0, asAny OfBitstreams Sample.pending);
                (3, asAny OfBitstreams Sample.pending);
                (8, sample_success Race.b_jpg)];
     errored := None |}.
Proof.
  reflexivity.
Qed.

(** When the page of the first listing arrives before the bundle lookup
    is heard again, its thumbnail is emitted too. *)
Example getThumbnailFor_in_time :
  emitted (patient_getThumbnailFor 1%nat) =
  [asAny OfBitstreams Sample.pending;
   sample_success Race.a_jpg;
   asAny OfBitstreams Sample.pending;
   sample_success Race.b_jpg].
Proof.
  reflexivity.
Qed.

(** Item 1, original "poster.tif": no thumbnail of the page matches. *)
Lemma getMatchingThumbnail_no_match_sample :
  exists w e,
    In w (emitted (sample_getMatchingThumbnail 1%nat Sample.original_poster)) /\
    hasSucceeded w = false /\
    error w = value e /\
    statusCode e = 404%Z /\
    statusText e = "404" /\
    message e = "No matching thumbnail found" /\
    payload w = undefined.
Proof.
  apply (getMatchingThumbnail_no_match nat Sample.Bundle Sample.Bitstream string
           Sample.bitstreamsHref Sample.name Sample.neverEmpty
           Sample.bundleEvents Sample.listEvents
           1%nat Sample.original_poster
           [(0, Sample.pending)] [] 10
           (Sample.succeeded thumbnails_1) thumbnails_1
           (Sample.succeeded (Sample.paged everything all_three))
           (Sample.paged everything all_three) all_three).
  - reflexivity.
  - reflexivity.
  - reflexivity.
  - arrives [(0, @Sample.pending (PaginatedList Sample.Bitstream))] 1.
  - reflexivity.
  - reflexivity.
  - intros thumbnail [H | [H | [H | []]]]; subst thumbnail; reflexivity.
Defined.

(** The third repository with bundle B nine ticks after bundle A: the
    page of A arrives five ticks after its request, while the listing of
    A is still the current one, and its first element is the thumbnail. *)
Lemma getThumbnailFor_first_element_sample :
  In (new_RemoteData false false true undefined (value (OfBitstream Race.a_jpg)))
     (emitted (patient_getThumbnailFor 1%nat)) /\
  In (FindAllByHref "/bundles/a/bitstreams" justOne [])
     (requests (patient_getThumbnailFor 1%nat)) /\
  elementsPerPage (elementsPerPage_only 1) = Some 1%Z.
Proof.
  apply (getThumbnailFor_first_element nat Sample.Bundle Sample.Bitstream string
           Sample.bitstreamsHref Sample.neverEmpty
           Race.patientBundleEvents Race.listEvents
           1%nat
           [] [(9, Sample.succeeded (Sample.thumbnailsOf "/bundles/b/bitstreams"))] 0
           (Sample.succeeded (Sample.thumbnailsOf "/bundles/a/bitstreams"))
           (Sample.thumbnailsOf "/bundles/a/bitstreams")
           (Sample.succeeded (Race.pageOf Race.a_jpg))
           (Race.pageOf Race.a_jpg)
           Race.a_jpg []).
  - reflexivity.
  - reflexivity.
  - reflexivity.
  - arrives [(0, @Sample.pending (PaginatedList Sample.Bitstream))] 5.
  - reflexivity.
  - reflexivity.
Defined.

(** Item 1, original "cover.jpg": the second bitstream of the page is the
    first whose name starts with it. *)
Lemma getMatchingThumbnail_first_match_sample :
  In (new_RemoteData false false true undefined (value (OfBitstream Sample.cover_jpg)))
     (emitted (sample_getMatchingThumbnail 1%nat Sample.original_cover)).
Proof.
  apply (getMatchingThumbnail_first_match nat Sample.Bundle Sample.Bitstream string
           Sample.bitstreamsHref Sample.name Sample.neverEmpty
           Sample.bundleEvents Sample.listEvents
           1%nat Sample.original_cover
           [(0, Sample.pending)] [] 10
           (Sample.succeeded thumbnails_1) thumbnails_1
           (Sample.succeeded (Sample.paged everything all_three))
           (Sample.paged everything all_three)
           [Sample.map_png] [Sample.cover_png] Sample.cover_jpg).
  - reflexivity.
  - reflexivity.
  - reflexivity.
  - arrives [(0, @Sample.pending (PaginatedList Sample.Bitstream))] 1.
  - reflexivity.
  - reflexivity.
  - intros earlier [H | []]; subst earlier; reflexivity.
  - reflexivity.
Defined.

(** Item 2: the failed wrapper of the bundle lookup is emitted as it is. *)
Lemma getThumbnailFor_empty_bundle_sample :
  In (Sample.failed 404 "Not found" undefined)
     (emitted (sample_getThumbnailFor 2%nat)) /\
  errored (sample_getThumbnailFor 2%nat) = None.
Proof.
  destruct (getThumbnailFor_empty_bundle nat Sample.Bundle Sample.Bitstream string
              Sample.bitstreamsHref Sample.neverEmpty
              Sample.bundleEvents Sample.listEvents
              2%nat (Sample.failed 404 "Not found" undefined))
    as [Hin [Herr _]].
  - in_list.
  - reflexivity.
  - split; [exact Hin | exact Herr].
Defined.

(** Item 3: the page is empty. *)
Lemma getThumbnailFor_empty_page_sample :
  In (new_RemoteData false false true undefined undefined)
     (emitted (sample_getThumbnailFor 3%nat)).
Proof.
  apply (getThumbnailFor_empty_page nat Sample.Bundle Sample.Bitstream string
           Sample.bitstreamsHref Sample.neverEmpty
           Sample.bundleEvents Sample.listEvents
           3%nat
           [] [] 0
           (Sample.succeeded thumbnails_3) thumbnails_3
           (Sample.succeeded (Sample.paged justOne []))
           (Sample.paged justOne [])).
  - reflexivity.
  - reflexivity.
  - reflexivity.
  - arrives (@nil (nat * RemoteData (PaginatedList Sample.Bitstream))) 0.
  - reflexivity.
  - reflexivity.
Defined.

(** The third repository, bundle name "THUMBNAIL": the listing of bundle
    A is requested, and its pending wrapper, delivered at once, is
    emitted although the bundle lookup is heard again three ticks later;
    the listing of bundle B, the last, is requested too. *)
Lemma findAllByItemAndBundleName_composition_sample :
  (In (FindAllByHref "/bundles/a/bitstreams" justOne [])
      (requests (race_findAllByItemAndBundleName 1%nat "THUMBNAIL" justOne [])) /\
   In (asAny OfBitstreams Sample.pending)
      (emitted (race_findAllByItemAndBundleName 1%nat "THUMBNAIL" justOne []))) /\
  (In (FindAllByHref "/bundles/b/bitstreams" justOne [])
      (requests (race_findAllByItemAndBundleName 1%nat "THUMBNAIL" justOne [])) /\
   In (asAny OfBitstreams (Sample.succeeded (Race.pageOf Race.b_jpg)))
      (emitted (race_findAllByItemAndBundleName 1%nat "THUMBNAIL" justOne []))).
Proof.
  pose proof (proj1 (proj2 (proj2
    (findAllByItemAndBundleName_composition nat Sample.Bundle Sample.Bitstream string
       Sample.bitstreamsHref Race.bundleEvents Race.listEvents
       1%nat "THUMBNAIL" justOne [])))) as H.
  split.
  - destruct (H [] [(3, Sample.succeeded (Sample.thumbnailsOf "/bundles/b/bitstreams"))]
                0 (Sample.succeeded (Sample.thumbnailsOf "/bundles/a/bitstreams"))
                (Sample.thumbnailsOf "/bundles/a/bitstreams")
                Sample.pending eq_refl eq_refl) as [Hreq Hem].
    split; [exact Hreq |]. apply Hem.
    exists [], 0, [(5, Sample.succeeded (Race.pageOf Race.a_jpg))].
    split; [reflexivity | split; [intros e [] | reflexivity]].
  - destruct (H [(0, Sample.succeeded (Sample.thumbnailsOf "/bundles/a/bitstreams"))] []
                3 (Sample.succeeded (Sample.thumbnailsOf "/bundles/b/bitstreams"))
                (Sample.thumbnailsOf "/bundles/b/bitstreams")
                (Sample.succeeded (Race.pageOf Race.b_jpg)) eq_refl eq_refl)
      as [Hreq Hem].
    split; [exact Hreq |]. apply Hem.
    arrives [(0, @Sample.pending (PaginatedList Sample.Bitstream))] 5.
Defined.

(** Item 1: the succeeded wrapper [getThumbnailFor] emits was constructed
    by the service and satisfies the invariant. *)
Lemma constructed_wrappers_invariant_sample :
  passedOn Sample.bundleEvents Sample.listEvents 1%nat
    (sample_success Sample.map_png) \/
  (constructedByService (sample_success Sample.map_png) /\
   wrapperInvariant (sample_success Sample.map_png)).
Proof.
  apply (proj2 (constructed_wrappers_invariant nat Sample.Bundle Sample.Bitstream string
                  Sample.bitstreamsHref Sample.name Sample.neverEmpty
                  Sample.bundleEvents Sample.listEvents)
               1%nat Sample.original_cover).
  left. in_list.
Defined.

(** Item 3 has a THUMBNAIL bundle whose page is empty: the first element
    of the page is absent, and [getThumbnailFor] emits one wrapper, which
    has succeeded; no failed wrapper with a 404 is emitted. *)
Lemma getThumbnailFor_empty_page_not_failed :
  In (Sample.succeeded (Sample.paged justOne []))
     (Sample.listWrappers "/bundles/3/bitstreams" justOne []) /\
  index (@nil Sample.Bitstream) 0 = undefined /\
  emitted (sample_getThumbnailFor 3%nat) =
    [new_RemoteData false false true undefined undefined] /\
  ~ (exists w e,
       In w (emitted (sample_getThumbnailFor 3%nat)) /\
       hasSucceeded w = false /\
       error w = value e /\
       statusCode e = 404%Z).
Proof.
  split; [in_list |]. split; [reflexivity |]. split; [reflexivity |].
  intros [w [e [Hin [Hfail _]]]].
  simpl in Hin. destruct Hin as [Hw | []]. subst w. discriminate Hfail.
Qed.

(** Item 2 and item 3: the failed wrapper of the bundle lookup is handed
    on, and the empty page gives a succeeded wrapper without payload. *)
Lemma getThumbnailFor_absent_thumbnail_sample :
  In (Sample.failed 404 "Not found" undefined)
     (emitted (sample_getThumbnailFor 2%nat)) /\
  In (new_RemoteData false false true undefined undefined)
     (emitted (sample_getThumbnailFor 3%nat)).
Proof.
  split.
  - apply (proj1 (getThumbnailFor_absent_thumbnail nat Sample.Bundle Sample.Bitstream
                    string Sample.bitstreamsHref Sample.neverEmpty
                    Sample.bundleEvents Sample.listEvents 2%nat)
                 (Sample.failed 404 "Not found" undefined)).
    + in_list.
    + reflexivity.
  - apply (proj1 (proj2 (getThumbnailFor_absent_thumbnail nat Sample.Bundle
                           Sample.Bitstream string Sample.bitstreamsHref
                           Sample.neverEmpty Sample.bundleEvents
                           Sample.listEvents 3%nat))
                 [] [] 0
                 (Sample.succeeded thumbnails_3) thumbnails_3
                 (Sample.succeeded (Sample.paged justOne []))
                 (Sample.paged justOne []) []).
    + reflexivity.
    + reflexivity.
    + reflexivity.
    + arrives (@nil (nat * RemoteData (PaginatedList Sample.Bitstream))) 0.
    + reflexivity.
    + reflexivity.
    + reflexivity.
Defined.

(** The listing of item 4 delivers a failed wrapper, with an error, that
    still carries a payload.  [getThumbnailFor] reads the payload without
    looking at [hasSucceeded]: the only wrapper it emits has succeeded and
    has no error, so the failure is not delivered as a failed wrapper. *)
Lemma failure_with_payload_not_delivered :
  In (Sample.failed 500 "Internal Server Error"
        (value (Sample.paged justOne [Sample.cover_jpg])))
     (Sample.listWrappers "/bundles/4/bitstreams" justOne []) /\
  isFailed (Sample.failed 500 "Internal Server Error"
              (value (Sample.paged justOne [Sample.cover_jpg]))) /\
  emitted (sample_getThumbnailFor 4%nat) =
    [new_RemoteData false false true undefined (value (OfBitstream Sample.cover_jpg))] /\
  ~ (exists w, In w (emitted (sample_getThumbnailFor 4%nat)) /\ isFailed w).
Proof.
  split; [in_list |]. split; [split; reflexivity |]. split; [reflexivity |].
  intros [w [Hin [Hfail _]]].
  simpl in Hin. destruct Hin as [Hw | []]. subst w. discriminate Hfail.
Qed.

(** Item 2: the failed wrapper of the bundle lookup, which has no
    payload, is emitted as it is by both thumbnail lookups.  The third
    repository: the pending wrapper of the listing of bundle A, which
    arrives at once, is emitted as it is. *)
Lemma operations_do_not_throw_sample :
  (In (Sample.failed 404 "Not found" undefined)
      (emitted (sample_getThumbnailFor 2%nat)) /\
   In (Sample.failed 404 "Not found" undefined)
      (emitted (sample_getMatchingThumbnail 2%nat Sample.original_cover))) /\
  In (asAny OfBitstreams Sample.pending) (emitted (race_getThumbnailFor 1%nat)).
Proof.
  split.
  - apply (proj1 (proj2 (proj2 (proj2 (proj2 (proj2
             (operations_do_not_throw nat Sample.Bundle Sample.Bitstream string
                Sample.bitstreamsHref Sample.name Sample.neverEmpty
                Sample.bundleEvents Sample.listEvents))))))
           2%nat Sample.original_cover (Sample.failed 404 "Not found" undefined)).
    + in_list.
    + reflexivity.
  - apply (proj1 (proj1 (proj2 (proj2 (proj2 (proj2 (proj2 (proj2
             (operations_do_not_throw nat Sample.Bundle Sample.Bitstream string
                Sample.bitstreamsHref Sample.name Sample.neverEmpty
                Race.bundleEvents Race.listEvents)))))))
             1%nat Sample.original_cover
             [] [(3, Sample.succeeded (Sample.thumbnailsOf "/bundles/b/bitstreams"))]
             0 (Sample.succeeded (Sample.thumbnailsOf "/bundles/a/bitstreams"))
             (Sample.thumbnailsOf "/bundles/a/bitstreams")
             Sample.pending eq_refl eq_refl eq_refl eq_refl)).
    exists [], 0, [(5, Sample.succeeded (Race.pageOf Race.a_jpg))].
    split; [reflexivity | split; [intros e [] | reflexivity]].
Defined.

(** Item 1: the two lookups request the listing of the same bundle, one
    with the largest page size and one with page size one. *)
Lemma listing_page_sizes_sample :
  In (FindAllByHref "/bundles/1/bitstreams" everything [])
     (requests (sample_getMatchingThumbnail 1%nat Sample.original_cover)) /\
  In (FindAllByHref "/bundles/1/bitstreams" justOne [])
     (requests (sample_getThumbnailFor 1%nat)).
Proof.
  apply (proj1 (proj2 (proj2
           (listing_page_sizes nat Sample.Bundle Sample.Bitstream string
              Sample.bitstreamsHref Sample.name Sample.neverEmpty
              Sample.bundleEvents Sample.listEvents
              1%nat Sample.original_cover)))
         (Sample.succeeded thumbnails_1) thumbnails_1).
  - in_list.
  - reflexivity.
  - reflexivity.
Defined.

(** ** The further properties on the sample repositories *)

(** Item 1, original "cover.jpg": where the succeeded wrapper of
    "cover.jpg.jpg" comes from. *)
Lemma getMatchingThumbnail_origin_sample :
  (exists bundleRD,
     In bundleRD (bundleWrappers Sample.bundleEvents 1%nat "THUMBNAIL") /\
     isNotEmpty Sample.neverEmpty (payload bundleRD) = false /\
     sample_success Sample.cover_jpg = asAny OfBundle bundleRD) \/
  (exists bundleRD bundle bitstreamRD,
     In bundleRD (bundleWrappers Sample.bundleEvents 1%nat "THUMBNAIL") /\
     payload bundleRD = value bundle /\
     Sample.neverEmpty bundle = false /\
     In bitstreamRD
        (listWrappers Sample.listEvents (Sample.bitstreamsHref bundle) everything []) /\
     ((hasValue (payload bitstreamRD) = false /\
       sample_success Sample.cover_jpg = asAny OfBitstreams bitstreamRD) \/
      (exists paginated,
         payload bitstreamRD = value paginated /\
         hasValue (page paginated) = false /\
         sample_success Sample.cover_jpg = asAny OfBitstreams bitstreamRD) \/
      (exists paginated before thumbnail after,
         payload bitstreamRD = value paginated /\
         page paginated = value (before ++ thumbnail :: after)%list /\
         (forall earlier, In earlier before ->
            startsWith (Sample.name earlier) (Sample.name Sample.original_cover)
            = false) /\
         startsWith (Sample.name thumbnail) (Sample.name Sample.original_cover)
         = true /\
         sample_success Sample.cover_jpg = sample_success thumbnail) \/
      (exists paginated elements,
         payload bitstreamRD = value paginated /\
         page paginated = value elements /\
         (forall thumbnail, In thumbnail elements ->
            startsWith (Sample.name thumbnail) (Sample.name Sample.original_cover)
            = false) /\
         sample_success Sample.cover_jpg =
         new_RemoteData false false false
           (value (new_RemoteDataError 404 "404" "No matching thumbnail found"))
           undefined))).
Proof.
  apply (getMatchingThumbnail_origin nat Sample.Bundle Sample.Bitstream string
           Sample.bitstreamsHref Sample.name Sample.neverEmpty
           Sample.bundleEvents Sample.listEvents
           1%nat Sample.original_cover (sample_success Sample.cover_jpg)).
  in_list.
Defined.

(** Item 1: where the succeeded wrapper of "map.png.jpg" comes from. *)
Lemma getThumbnailFor_origin_sample :
  (exists bundleRD,
     In bundleRD (bundleWrappers Sample.bundleEvents 1%nat "THUMBNAIL") /\
     isNotEmpty Sample.neverEmpty (payload bundleRD) = false /\
     sample_success Sample.map_png = asAny OfBundle bundleRD) \/
  (exists bundleRD bundle bitstreamRD,
     In bundleRD (bundleWrappers Sample.bundleEvents 1%nat "THUMBNAIL") /\
     payload bundleRD = value bundle /\
     Sample.neverEmpty bundle = false /\
     In bitstreamRD
        (listWrappers Sample.listEvents (Sample.bitstreamsHref bundle) justOne []) /\
     ((hasValue (payload bitstreamRD) = false /\
       sample_success Sample.map_png = asAny OfBitstreams bitstreamRD) \/
      (exists paginated,
         payload bitstreamRD = value paginated /\
         hasValue (page paginated) = false /\
         sample_success Sample.map_png = asAny OfBitstreams bitstreamRD) \/
      (exists paginated elements,
         payload bitstreamRD = value paginated /\
         page paginated = value elements /\
         sample_success Sample.map_png =
         new_RemoteData false false true undefined
           (maybe_map OfBitstream (index elements 0))))).
Proof.
  apply (getThumbnailFor_origin nat Sample.Bundle Sample.Bitstream string
           Sample.bitstreamsHref Sample.neverEmpty
           Sample.bundleEvents Sample.listEvents
           1%nat (sample_success Sample.map_png)).
  in_list.
Defined.

(** The third repository: the listing of bundle B, the last the bundle
    lookup delivers, closes the stream with both its wrappers. *)
Lemma findAllByItemAndBundleName_stream_sample :
  exists front,
    emitted (race_findAllByItemAndBundleName 1%nat "THUMBNAIL" justOne [])
    = (front ++ [asAny OfBitstreams Sample.pending;
                 asAny OfBitstreams (Sample.succeeded (Race.pageOf Race.b_jpg))])%list.
Proof.
  apply (proj1 (proj2
           (findAllByItemAndBundleName_stream nat Sample.Bundle Sample.Bitstream string
              Sample.bitstreamsHref Race.bundleEvents Race.listEvents
              1%nat "THUMBNAIL" justOne []))
         [(0, Sample.succeeded (Sample.thumbnailsOf "/bundles/a/bitstreams"))]
         3 (Sample.succeeded (Sample.thumbnailsOf "/bundles/b/bitstreams"))
         (Sample.thumbnailsOf "/bundles/b/bitstreams")).
  - reflexivity.
  - reflexivity.
Defined.

(** Item 2 has no THUMBNAIL bundle: both lookups hand on the two wrappers
    of the bundle lookup and ask for no listing. *)
Lemma thumbnail_lookups_without_bundle_sample :
  sample_getThumbnailFor 2%nat =
    {| requests := [FindByItemAndName 2%nat "THUMBNAIL"];
       events := List.map (fun e => (fst e, asAny OfBundle (snd e)))
                   (Sample.bundleEvents 2%nat "THUMBNAIL");
       errored := None |} /\
  emitted (sample_getThumbnailFor 2%nat)
  = List.map (asAny OfBundle) (bundleWrappers Sample.bundleEvents 2%nat "THUMBNAIL") /\
  sample_getMatchingThumbnail 2%nat Sample.original_cover = sample_getThumbnailFor 2%nat.
Proof.
  apply (thumbnail_lookups_without_bundle nat Sample.Bundle Sample.Bitstream string
           Sample.bitstreamsHref Sample.name Sample.neverEmpty
           Sample.bundleEvents Sample.listEvents
           2%nat Sample.original_cover).
  intros bundleRD [H | [H | []]]; subst bundleRD; reflexivity.
Defined.

(** The listing of the second repository has a payload without page. *)
Lemma thumbnail_lookups_without_page_sample :
  In (asAny OfBitstreams (Sample.succeeded Edge.noPage))
     (emitted (edge_getThumbnailFor 5%nat)) /\
  In (asAny OfBitstreams (Sample.succeeded Edge.noPage))
     (emitted (edge_getMatchingThumbnail 5%nat Sample.original_cover)).
Proof.
  destruct (thumbnail_lookups_without_page nat Sample.Bundle Sample.Bitstream string
              Sample.bitstreamsHref Sample.name Sample.neverEmpty
              Edge.bundleEvents Edge.listEvents
              5%nat Sample.original_cover
              [] [] 0
              (Sample.succeeded (Sample.thumbnailsOf "/bundles/5/bitstreams"))
              (Sample.thumbnailsOf "/bundles/5/bitstreams")
              (Sample.succeeded Edge.noPage) Edge.noPage)
    as [Hfirst Hmatch].
  - reflexivity.
  - reflexivity.
  - reflexivity.
  - reflexivity.
  - reflexivity.
  - split; [apply Hfirst | apply Hmatch];
      arrives (@nil (nat * RemoteData (PaginatedList Sample.Bitstream))) 0.
Defined.

(** Item 1: the thumbnail lookups issue the requests of
    [findAllByItemAndBundleName] and emit as many wrappers. *)
Lemma thumbnail_lookups_follow_listing_sample :
  requests (sample_getThumbnailFor 1%nat)
  = requests (sample_findAllByItemAndBundleName 1%nat "THUMBNAIL" justOne []) /\
  List.length (emitted (sample_findAllByItemAndBundleName 1%nat "THUMBNAIL" justOne []))
  = List.length (emitted (sample_getThumbnailFor 1%nat)) /\
  requests (sample_getMatchingThumbnail 1%nat Sample.original_cover)
  = requests (sample_findAllByItemAndBundleName 1%nat "THUMBNAIL" everything []) /\
  List.length (emitted (sample_findAllByItemAndBundleName 1%nat "THUMBNAIL" everything []))
  = List.length (emitted (sample_getMatchingThumbnail 1%nat Sample.original_cover)).
Proof.
  destruct (thumbnail_lookups_follow_listing nat Sample.Bundle Sample.Bitstream string
              Sample.bitstreamsHref Sample.name Sample.neverEmpty
              Sample.bundleEvents Sample.listEvents
              1%nat Sample.original_cover)
    as [Hr1 [He1 [Hr2 He2]]].
  - intros bundleRD [H | [H | []]]; subst bundleRD; reflexivity.
  - split; [exact Hr1 |]. split; [exact (Forall2_length He1) |].
    split; [exact Hr2 | exact (Forall2_length He2)].
Defined.

(** Item 1, an original without name: the first bitstream of the page. *)
Lemma getMatchingThumbnail_empty_name_sample :
  In (sample_success Sample.map_png)
     (emitted (sample_getMatchingThumbnail 1%nat {| Sample.name := "" |})).
Proof.
  apply (getMatchingThumbnail_empty_name nat Sample.Bundle Sample.Bitstream string
           Sample.bitstreamsHref Sample.name Sample.neverEmpty
           Sample.bundleEvents Sample.listEvents
           1%nat {| Sample.name := "" |}
           [(0, Sample.pending)] [] 10
           (Sample.succeeded thumbnails_1) thumbnails_1
           (Sample.succeeded (Sample.paged everything all_three))
           (Sample.paged everything all_three)
           Sample.map_png [Sample.cover_jpg; Sample.cover_png]).
  - reflexivity.
  - reflexivity.
  - reflexivity.
  - reflexivity.
  - arrives [(0, @Sample.pending (PaginatedList Sample.Bitstream))] 1.
  - reflexivity.
  - reflexivity.
Defined.

(** Item 1, original "cover.jpg.jpg.original": every thumbnail name is a
    shorter string, "cover.jpg.jpg" even a prefix of it; none matches. *)
Lemma getMatchingThumbnail_shorter_names_sample :
  In (new_RemoteData false false false
        (value (new_RemoteDataError 404 "404" "No matching thumbnail found"))
        undefined)
     (emitted (sample_getMatchingThumbnail 1%nat
                 {| Sample.name := "cover.jpg.jpg.original" |})).
Proof.
  apply (getMatchingThumbnail_shorter_names nat Sample.Bundle Sample.Bitstream string
           Sample.bitstreamsHref Sample.name Sample.neverEmpty
           Sample.bundleEvents Sample.listEvents
           1%nat {| Sample.name := "cover.jpg.jpg.original" |}
           [(0, Sample.pending)] [] 10
           (Sample.succeeded thumbnails_1) thumbnails_1
           (Sample.succeeded (Sample.paged everything all_three))
           (Sample.paged everything all_three)
           all_three).
  - reflexivity.
  - reflexivity.
  - reflexivity.
  - arrives [(0, @Sample.pending (PaginatedList Sample.Bitstream))] 1.
  - reflexivity.
  - reflexivity.
  - intros thumbnail [H | [H | [H | []]]]; subst thumbnail; simpl; lia.
Defined.
